(** * LSPbridge: the benchmark dashboard generator

    A shallow embedding of [scripts/generate_benchmark_charts.py].

    The script walks a benchmark directory, decodes the JSON result files it
    finds under [archive/] and [latest/], renders a trends block (charts, or a
    text summary), and writes [reports/index.html] and [reports/README.md].

    What is modelled, and how:
    - the file system is a tree of directories and regular files; a
      directory lists its entries in the order the operating system
      enumerates them; there are no symbolic links, no permissions and no
      concurrent writers, and text is stored as it is written;
    - a path is the list of its components below the root of that tree;
    - Python exceptions are values of [exn]; code that may raise returns a
      [result]; code that also writes files lives in the monad [M], which
      keeps the writes made before an exception;
    - what is outside the script is a parameter: the JSON decoder, the import
      flag of the plotting stack, the plotting calls, the floating-point
      statistics of the text summary, and each reading of the clock;
    - log output (standard error) is not part of the state. *)

From Stdlib Require Import Bool List String Ascii ZArith QArith Lia.
From Stdlib Require Import Sorted Permutation DecimalString OrdersEx.
Import ListNotations.
Set Warnings "-register-all".
Close Scope Q_scope.
Open Scope string_scope.
Open Scope list_scope.

(** ** Exceptions and results *)

(** The exception classes the script can meet.  All of them derive from
    Python's [Exception]; [LibraryError] stands for any other [Exception]
    raised inside the plotting stack.  Asynchronous interruptions
    ([KeyboardInterrupt]) are outside the model. *)
Inductive exn : Type :=
| FileNotFoundError
| FileExistsError
| NotADirectoryError
| IsADirectoryError
| JSONDecodeError
| UnicodeDecodeError
| AttributeError
| KeyError
| TypeError
| ValueError
| LibraryError (name : string).

Definition result (A : Type) : Type := (exn + A)%type.

Definition rbind {A B : Type} (r : result A) (k : A -> result B) : result B :=
  match r with
  | inl e => inl e
  | inr a => k a
  end.

Notation "x <~ e ;; k" := (rbind e (fun x => k))
  (at level 61, e at next level, right associativity).

(** [except (json.JSONDecodeError, FileNotFoundError)]. *)
Definition handled (e : exn) : bool :=
  match e with
  | JSONDecodeError | FileNotFoundError => true
  | _ => false
  end.

(** [try: body  except (json.JSONDecodeError, FileNotFoundError): fallback]. *)
Definition try_except {A : Type} (body : result A) (fallback : A) : result A :=
  match body with
  | inr a => inr a
  | inl e => if handled e then inr fallback else inl e
  end.

(** ** Decoded JSON values *)

(** What [json.load] returns.  A finite float is held by its exact value;
    the non-standard constants NaN and Infinity are left out. *)
Inductive pyval : Type :=
| PNone
| PBool (b : bool)
| PInt (n : Z)
| PFloat (q : Q)
| PStr (s : string)
| PList (items : list pyval)
| PDict (items : list (string * pyval)).

Fixpoint assoc {A : Type} (k : string) (l : list (string * A)) : option A :=
  match l with
  | [] => None
  | (k', v) :: l' => if String.eqb k k' then Some v else assoc k l'
  end.

Definition num_val (v : pyval) : option Q :=
  match v with
  | PBool b => Some (if b then 1%Q else 0%Q)
  | PInt n => Some (inject_Z n)
  | PFloat q => Some q
  | _ => None
  end.

(** Python's [==] on decoded values: numbers (booleans included) by value,
    strings character by character, lists pointwise, dicts key by key. *)
Fixpoint py_eq (a b : pyval) {struct a} : bool :=
  match a, b with
  | PNone, PNone => true
  | PStr s, PStr t => String.eqb s t
  | PList xs, PList ys =>
      (fix go (xs ys : list pyval) {struct xs} : bool :=
         match xs, ys with
         | [], [] => true
         | x :: xs', y :: ys' => py_eq x y && go xs' ys'
         | _, _ => false
         end) xs ys
  | PDict d, PDict e =>
      Nat.eqb (List.length d) (List.length e) &&
      (fix go (d : list (string * pyval)) : bool :=
         match d with
         | [] => true
         | (k, v) :: d' =>
             match assoc k e with
             | Some w => py_eq v w
             | None => false
             end && go d'
         end) d
  | _, _ =>
      match num_val a, num_val b with
      | Some x, Some y => Qeq_bool x y
      | _, _ => false
      end
  end.

(** [d.get(key)]: [None] when the key is absent; only a dict has [get]. *)
Definition py_get (d : pyval) (key : string) : result pyval :=
  match d with
  | PDict items =>
      inr (match assoc key items with Some v => v | None => PNone end)
  | _ => inl AttributeError
  end.

Definition is_dict (v : pyval) : bool :=
  match v with PDict _ => true | _ => false end.

(** ** Paths and the file system *)

Definition path : Type := list string.

(** [p / name]. *)
Definition joinpath (p : path) (name : string) : path := p ++ [name].
Notation "p // name" := (joinpath p name) (at level 40, left associativity).

Inductive node : Type :=
| File (content : string)
| Dir (entries : list (string * node)).

Fixpoint lookup (fs : node) (p : path) : option node :=
  match p with
  | [] => Some fs
  | name :: rest =>
      match fs with
      | Dir es =>
          match assoc name es with
          | Some child => lookup child rest
          | None => None
          end
      | File _ => None
      end
  end.

(** [Path.exists()] and [Path.is_dir()]. *)
Definition exists_ (fs : node) (p : path) : bool :=
  match lookup fs p with Some _ => true | None => false end.

Definition is_dir (fs : node) (p : path) : bool :=
  match lookup fs p with Some (Dir _) => true | _ => false end.

(** [Path.iterdir()], in enumeration order. *)
Definition iterdir (fs : node) (p : path) : result (list path) :=
  match lookup fs p with
  | Some (Dir es) => inr (map (fun e => p // fst e) es)
  | Some (File _) => inl NotADirectoryError
  | None => inl FileNotFoundError
  end.

(** [name.endswith(suffix)]. *)
Definition endswith (name suffix : string) : bool :=
  let n := String.length name in
  let m := String.length suffix in
  Nat.leb m n && String.eqb (substring (n - m) m name) suffix.

(** The names the pattern ["*_parsed.json"] matches: a star matches any run of
    characters, the rest is literal. *)
Definition matches_parsed_json (name : string) : bool :=
  endswith name "_parsed.json".

(** [list(p.glob("*_parsed.json"))], in enumeration order; files and
    directories alike, nothing when [p] is not a directory. *)
Definition glob_parsed_json (fs : node) (p : path) : list path :=
  match lookup fs p with
  | Some (Dir es) =>
      map (fun name => p // name) (filter matches_parsed_json (map fst es))
  | _ => []
  end.

Definition set_entry (name : string) (child : node)
    (es : list (string * node)) : list (string * node) :=
  map (fun e => if String.eqb name (fst e) then (name, child) else e) es.

(** [open(p, 'w')] followed by [write(text)]: creates or truncates the file. *)
Fixpoint write_text (fs : node) (p : path) (text : string) : result node :=
  match p with
  | [] =>
      match fs with
      | File _ => inr (File text)
      | Dir _ => inl IsADirectoryError
      end
  | name :: rest =>
      match fs with
      | File _ => inl NotADirectoryError
      | Dir es =>
          match assoc name es with
          | Some child =>
              child' <~ write_text child rest text ;;
              inr (Dir (set_entry name child' es))
          | None =>
              match rest with
              | [] => inr (Dir (es ++ [(name, File text)]))
              | _ :: _ => inl FileNotFoundError
              end
          end
      end
  end.

(** [p.mkdir(exist_ok=True)]. *)
Fixpoint mkdir (fs : node) (p : path) : result node :=
  match p with
  | [] =>
      match fs with
      | Dir _ => inr fs
      | File _ => inl FileExistsError
      end
  | name :: rest =>
      match fs with
      | File _ => inl NotADirectoryError
      | Dir es =>
          match assoc name es with
          | Some child =>
              child' <~ mkdir child rest ;;
              inr (Dir (set_entry name child' es))
          | None =>
              match rest with
              | [] => inr (Dir (es ++ [(name, Dir [])]))
              | _ :: _ => inl FileNotFoundError
              end
          end
      end
  end.

(** [p.mkdir(parents=True, exist_ok=True)]. *)
Fixpoint mkdir_parents (fs : node) (p : path) : result node :=
  match p with
  | [] =>
      match fs with
      | Dir _ => inr fs
      | File _ => inl FileExistsError
      end
  | name :: rest =>
      match fs with
      | File _ => inl NotADirectoryError
      | Dir es =>
          match assoc name es with
          | Some child =>
              child' <~ mkdir_parents child rest ;;
              inr (Dir (set_entry name child' es))
          | None =>
              child' <~ mkdir_parents (Dir []) rest ;;
              inr (Dir (es ++ [(name, child')]))
          end
      end
  end.

(** ** Sorting paths *)

(** [p < q] on paths: part by part, strings by code point (names are UTF-8
    text, whose byte order is the order of its code points). *)
Fixpoint path_ltb (p q : path) : bool :=
  match p, q with
  | [], [] => false
  | [], _ :: _ => true
  | _ :: _, [] => false
  | a :: p', b :: q' =>
      match String.compare a b with
      | Lt => true
      | Gt => false
      | Eq => path_ltb p' q'
      end
  end.

Section Sorting.
Context {A : Type} (ltb : A -> A -> bool).

Fixpoint insert_sorted (x : A) (l : list A) : list A :=
  match l with
  | [] => [x]
  | y :: l' => if ltb y x then y :: insert_sorted x l' else x :: l
  end.

(** [sorted(l)]: stable, ascending. *)
Fixpoint sorted_by (l : list A) : list A :=
  match l with
  | [] => []
  | x :: l' => insert_sorted x (sorted_by l')
  end.
End Sorting.

Definition sorted (l : list path) : list path := sorted_by path_ltb l.

(** ** The clock *)

Open Scope string_scope.

(** What [datetime.now()] returns. *)
Record datetime : Type := {
  year : N;
  month : N;
  day : N;
  hour : N;
  minute : N;
  second : N;
  microsecond : N
}.

Definition zero_pad (width : nat) (n : N) : string :=
  let digits := NilEmpty.string_of_uint (N.to_uint n) in
  String.concat "" (repeat "0" (width - String.length digits)) ++ digits.

(** [strftime('%Y-%m-%d %H:%M:%S')], for years of up to four digits. *)
Definition strftime (t : datetime) : string :=
  zero_pad 4 (year t) ++ "-" ++ zero_pad 2 (month t) ++ "-" ++
  zero_pad 2 (day t) ++ " " ++ zero_pad 2 (hour t) ++ ":" ++
  zero_pad 2 (minute t) ++ ":" ++ zero_pad 2 (second t).

(** ** The page templates *)

(** The newline and the double quote, which a string literal cannot hold. *)
Definition nl : string := String (ascii_of_nat 10) EmptyString.
Definition dq : string := String (ascii_of_nat 34) EmptyString.

(** The lines of the HTML template, split at its two placeholders. *)
Definition html_head : list string :=
  [ "<!DOCTYPE html>";
    "<html lang=" ++ dq ++ "en" ++ dq ++ ">";
    "<head>";
    "    <meta charset=" ++ dq ++ "UTF-8" ++ dq ++ ">";
    "    <meta name=" ++ dq ++ "viewport" ++ dq ++ " content=" ++ dq ++ "width=device-width, initial-scale=1.0" ++ dq ++ ">";
    "    <title>LSPbridge Benchmark Dashboard</title>";
    "    <style>";
    "        body {";
    "            font-family: -apple-system, BlinkMacSystemFont, 'Segoe UI', Roboto, sans-serif;";
    "            line-height: 1.6;";
    "            color: #333;";
    "            max-width: 1200px;";
    "            margin: 0 auto;";
    "            padding: 20px;";
    "            background-color: #f5f5f5;";
    "        }";
    "        .header {";
    "            background: linear-gradient(135deg, #667eea 0%, #764ba2 100%);";
    "            color: white;";
    "            padding: 40px 20px;";
    "            border-radius: 10px;";
    "            text-align: center;";
    "            margin-bottom: 30px;";
    "        }";
    "        .content {";
    "            background: white;";
    "            padding: 30px;";
    "            border-radius: 10px;";
    "            box-shadow: 0 2px 10px rgba(0,0,0,0.1);";
    "        }";
    "        .metric {";
    "            display: inline-block;";
    "            background: #f8f9fa;";
    "            padding: 15px 20px;";
    "            margin: 10px;";
    "            border-radius: 8px;";
    "            border-left: 4px solid #007bff;";
    "        }";
    "        .chart {";
    "            text-align: center;";
    "            margin: 30px 0;";
    "        }";
    "        .chart img {";
    "            max-width: 100%;";
    "            height: auto;";
    "            border-radius: 8px;";
    "            box-shadow: 0 2px 8px rgba(0,0,0,0.1);";
    "        }";
    "        .footer {";
    "            text-align: center;";
    "            padding: 20px;";
    "            color: #666;";
    "            font-size: 0.9em;";
    "        }";
    "        h1, h2, h3 { color: #2c3e50; }";
    "        .status {";
    "            padding: 8px 16px;";
    "            border-radius: 20px;";
    "            display: inline-block;";
    "            font-weight: bold;";
    "            text-transform: uppercase;";
    "            font-size: 0.8em;";
    "        }";
    "        .status.good { background: #d4edda; color: #155724; }";
    "        .status.warning { background: #fff3cd; color: #856404; }";
    "        .status.error { background: #f8d7da; color: #721c24; }";
    "    </style>";
    "</head>";
    "<body>";
    "    <div class=" ++ dq ++ "header" ++ dq ++ ">";
    "        <h1>üöÄ LSPbridge Performance Dashboard</h1>";
    "        <p>Automated performance tracking and regression detection</p>";
    "        <span class=" ++ dq ++ "status good" ++ dq ++ ">System Healthy</span>";
    "    </div>";
    "    ";
    "    <div class=" ++ dq ++ "content" ++ dq ++ ">";
    "        <div class=" ++ dq ++ "metrics" ++ dq ++ ">";
    "            <div class=" ++ dq ++ "metric" ++ dq ++ ">";
    "                <strong>Last Updated</strong><br>" ].

Definition html_middle : list string :=
  [ "            </div>";
    "            <div class=" ++ dq ++ "metric" ++ dq ++ ">";
    "                <strong>Monitoring</strong><br>";
    "                7 Benchmark Groups";
    "            </div>";
    "            <div class=" ++ dq ++ "metric" ++ dq ++ ">";
    "                <strong>Threshold</strong><br>";
    "                15% Regression Alert";
    "            </div>";
    "        </div>";
    "        " ].

Definition html_tail : list string :=
  [ "        ";
    "        <h2>üìÅ Available Reports</h2>";
    "        <ul>";
    "            <li><a href=" ++ dq ++ "./latest/" ++ dq ++ ">Latest Results</a></li>";
    "            <li><a href=" ++ dq ++ "./archive/" ++ dq ++ ">Historical Archive</a></li>";
    "            <li><a href=" ++ dq ++ "https://github.com/your-org/lspbridge/actions" ++ dq ++ ">CI Pipeline</a></li>";
    "        </ul>";
    "    </div>";
    "    ";
    "    <div class=" ++ dq ++ "footer" ++ dq ++ ">";
    "        Generated by LSPbridge Benchmark Dashboard | ";
    "        <a href=" ++ dq ++ "https://github.com/your-org/lspbridge" ++ dq ++ ">View Source</a>";
    "    </div>";
    "</body>";
    "</html>" ].

Definition readme_head : list string :=
  [ "# LSPbridge Benchmark Dashboard";
    "" ].

Definition readme_body : list string :=
  [ "";
    "## üîó Navigation";
    "";
    "- [üìä Interactive Dashboard](./index.html)";
    "- [üìÑ Latest Results](./latest/)";
    "- [üìö Historical Archive](./archive/)";
    "";
    "## üìà Performance Monitoring";
    "";
    "This dashboard automatically tracks performance across all LSPbridge benchmarks:";
    "";
    "- **Context Extraction**: File parsing and semantic analysis performance";
    "- **Context Ranking**: Algorithm efficiency for relevance scoring  ";
    "- **Diagnostic Prioritization**: Error categorization and sorting speed";
    "- **Memory Usage**: Memory consumption patterns and cache efficiency";
    "- **Concurrent Throughput**: Parallel processing performance";
    "- **Cache Performance**: Hit rates and retrieval speeds";
    "- **Cold Start**: Initialization and startup performance";
    "";
    "## üö® Regression Detection";
    "";
    "- **Threshold**: 15% performance degradation triggers alerts";
    "- **Memory Threshold**: 20% memory increase triggers warnings  ";
    "- **Cache Threshold**: 10% cache hit rate decrease triggers investigation";
    "" ].

(** [generate_index_html]: the template with the clock reading and the trends
    block put in place. *)
Definition generate_index_html (now : datetime) (trends_content : string)
    : string :=
  String.concat nl
    (html_head ++ ["                " ++ strftime now]%string ++
     html_middle ++ ["        " ++ trends_content]%string ++
     html_tail)%list.

(** The text [run] writes to [README.md]. *)
Definition readme_text (trends_content : string) (now : datetime) : string :=
  String.concat nl
    (readme_head ++ [trends_content] ++
     readme_body ++ ["Generated: " ++ strftime now; ""]%string)%list.

Definition no_data_message : string :=
  "No benchmark data available for visualization." ++ nl.

Open Scope list_scope.

(** ** File writes: state with exceptions *)

Definition M (A : Type) : Type := node -> result A * node.

Definition ret {A : Type} (a : A) : M A := fun fs => (inr a, fs).

Definition bind {A B : Type} (m : M A) (k : A -> M B) : M B :=
  fun fs =>
    match m fs with
    | (inr a, fs') => k a fs'
    | (inl e, fs') => (inl e, fs')
    end.

Notation "x <- m ;; k" := (bind m (fun x => k))
  (at level 61, m at next level, right associativity).

Definition lift {A : Type} (r : result A) : M A := fun fs => (r, fs).

Definition reads {A : Type} (f : node -> result A) : M A :=
  fun fs => (f fs, fs).

Definition writes (f : node -> result node) : M unit :=
  fun fs =>
    match f fs with
    | inr fs' => (inr tt, fs')
    | inl e => (inl e, fs)
    end.

(** [try: body  except Exception as e: handler]. *)
Definition try_except_Exception (body : M unit) (handler : exn -> M unit)
    : M unit :=
  fun fs =>
    match body fs with
    | (inr a, fs') => (inr a, fs')
    | (inl e, fs') => handler e fs'
    end.

(** The exit status of the process: zero when [main] returns, one when an
    exception leaves it. *)
Definition exit_status (r : result unit) : Z :=
  match r with
  | inr _ => 0%Z
  | inl _ => 1%Z
  end.

(** A [for] loop that threads the accumulated list and stops at the first
    exception that leaves its body. *)
Fixpoint for_each {A B : Type} (body : B -> A -> result B) (acc : B)
    (l : list A) : result B :=
  match l with
  | [] => inr acc
  | x :: l' => acc' <~ body acc x ;; for_each body acc' l'
  end.

(** [any(d.get('timestamp') == latest_data.get('timestamp') for d in data)]:
    left to right, stopping at the first match. *)
Fixpoint any_same_timestamp (latest_data : pyval) (data : list pyval)
    : result bool :=
  match data with
  | [] => inr false
  | d :: data' =>
      a <~ py_get d "timestamp" ;;
      b <~ py_get latest_data "timestamp" ;;
      if py_eq a b then inr true else any_same_timestamp latest_data data'
  end.

(** ** Vocabulary of the properties *)

(** [sub] occurs in [s] as a contiguous run of characters. *)
Definition contains (sub s : string) : Prop :=
  exists pre suf : string, s = (pre ++ sub ++ suf)%string.

(** Some component of [p] on the way down from [fs] is a regular file. *)
Fixpoint blocked (fs : node) (p : path) : bool :=
  match fs with
  | File _ => true
  | Dir es =>
      match p with
      | [] => false
      | name :: rest =>
          match assoc name es with
          | Some child => blocked child rest
          | None => false
          end
      end
  end.

(** The text of the lines [ls], each followed by [sep]. *)
Fixpoint lines_before (sep : string) (ls : list string) : string :=
  match ls with
  | [] => ""
  | l :: ls' => l ++ sep ++ lines_before sep ls'
  end%string.

(** [q] is an initial segment of [p]. *)
Definition is_prefix (q p : path) : Prop := exists r : path, p = q ++ r.

(** ** Sample data *)

Definition new_year : datetime :=
  {| year := 2024; month := 1; day := 1;
     hour := 0; minute := 0; second := 0; microsecond := 0 |}.

Definition one_second_later : datetime :=
  {| year := 2024; month := 1; day := 1;
     hour := 0; minute := 0; second := 1; microsecond := 0 |}.

(** ** The visualizer *)

Record BenchmarkVisualizer : Type := {
  benchmark_dir : path;
  reports_dir : path;
  archive_dir : path;
  latest_dir : path
}.

(** [Path(os.environ.get(name, default))], given the value of the variable
    when it is set. *)
Definition environ_get (value : option path) (default : path) : path :=
  match value with
  | Some p => p
  | None => default
  end.

(** The attributes [__init__] sets. *)
Definition attributes (benchmark_dir : path) : BenchmarkVisualizer :=
  {| benchmark_dir := benchmark_dir;
     reports_dir := benchmark_dir // "reports";
     archive_dir := benchmark_dir // "archive";
     latest_dir := benchmark_dir // "latest" |}.

(** Nothing to merge from [latest/]: the marker [latest.json] is absent, or
    no name there matches [*_parsed.json]. *)
Definition no_latest_data (self : BenchmarkVisualizer) (fs : node) : bool :=
  negb (exists_ fs (latest_dir self // "latest.json")) ||
  match glob_parsed_json fs (latest_dir self) with
  | [] => true
  | _ :: _ => false
  end.

(** The four charts. *)
Inductive chart : Type :=
| OverallTrends
| GroupPerformance
| RecentChanges
| PerformanceDistribution.

(** ** More of Python on decoded values *)

(** [d.get(key, default)]. *)
Definition py_get_default (d : pyval) (key : string) (default : pyval)
    : result pyval :=
  match d with
  | PDict items =>
      inr (match assoc key items with Some v => v | None => default end)
  | _ => inl AttributeError
  end.

(** [x[key]] for a string [key]: a dict looks the key up, nothing else takes
    a string subscript. *)
Definition py_getitem (x : pyval) (key : string) : result pyval :=
  match x with
  | PDict items =>
      match assoc key items with
      | Some v => inr v
      | None => inl KeyError
      end
  | _ => inl TypeError
  end.

(** A byte that continues a UTF-8 sequence. *)
Definition is_continuation (c : ascii) : bool :=
  let n := nat_of_ascii c in
  Nat.leb 128 n && Nat.ltb n 192.

(** The characters of a string, each as the string of its bytes. *)
Fixpoint code_points (s : string) : list string :=
  match s with
  | EmptyString => []
  | String c rest =>
      let following := code_points rest in
      match rest, following with
      | String d _, x :: xs =>
          if is_continuation d then String c x :: xs
          else String c EmptyString :: following
      | _, _ => String c EmptyString :: following
      end
  end.

(** [s[:n]]. *)
Definition str_slice_to (n : nat) (s : string) : string :=
  String.concat "" (firstn n (code_points s)).

(** [len(x)]. *)
Definition py_len (x : pyval) : result nat :=
  match x with
  | PStr s => inr (List.length (code_points s))
  | PList items => inr (List.length items)
  | PDict items => inr (List.length items)
  | _ => inl TypeError
  end.

(** The truth value of [x], as [if x:] takes it. *)
Definition py_truthy (x : pyval) : bool :=
  match x with
  | PNone => false
  | PBool b => b
  | PInt n => negb (Z.eqb n 0)
  | PFloat q => negb (Qeq_bool q 0)
  | PStr s => negb (String.eqb s "")
  | PList items => match items with [] => false | _ :: _ => true end
  | PDict items => match items with [] => false | _ :: _ => true end
  end.

(** What [for item in x] goes through: the elements of a list, the keys of
    a dict, the characters of a string. *)
Definition py_iter (x : pyval) : result (list pyval) :=
  match x with
  | PStr s => inr (map PStr (code_points s))
  | PList items => inr items
  | PDict items => inr (map (fun kv => PStr (fst kv)) items)
  | _ => inl TypeError
  end.

(** Lists and dicts cannot be dict keys. *)
Definition hashable (x : pyval) : bool :=
  match x with
  | PList _ | PDict _ => false
  | _ => true
  end.

(** [groups[group].append(value)], after [groups[group] = []] when the key
    is new; a dict keeps its keys in the order they were first set. *)
Fixpoint groups_append (groups : list (pyval * list pyval))
    (group value : pyval) : list (pyval * list pyval) :=
  match groups with
  | [] => [(group, [value])]
  | (k, vs) :: groups' =>
      if py_eq k group then (k, vs ++ [value]) :: groups'
      else (k, vs) :: groups_append groups' group value
  end.

(** One turn of the grouping loop of the text summary. *)
Definition add_benchmark (groups : list (pyval * list pyval))
    (bench : pyval) : result (list (pyval * list pyval)) :=
  group <~ py_getitem bench "group" ;;
  if hashable group then
    value <~ py_getitem bench "mean_ms" ;;
    inr (groups_append groups group value)
  else inl TypeError.

(** One row of the table the charts are drawn from. *)
Record FlattenedRecord : Type := {
  row_timestamp : pyval;
  row_commit : pyval;
  row_benchmark : pyval;
  row_group : pyval;
  row_mean_ms : pyval;
  row_std_dev_ms : pyval
}.

Section Rendering.

(** [str(x)] for floats, lists and dicts. *)
Variable repr : pyval -> string.

(** What [x[:8]] raises when [x] is a dict ([TypeError] up to Python 3.11,
    [KeyError] from 3.12). *)
Variable dict_slice_error : exn.

(** [sum(times) / len(times)], [min(times)], [max(times)] and the format
    [:.2f]: floating point. *)
Variable average : list pyval -> result pyval.
Variable py_min : list pyval -> result pyval.
Variable py_max : list pyval -> result pyval.
Variable format_2f : pyval -> result string.

(** [x / 1000000]: floating point. *)
Variable div_million : pyval -> result pyval.

(** [str(x)], as an f-string prints [x]. *)
Definition py_str (x : pyval) : string :=
  match x with
  | PNone => "None"
  | PBool true => "True"
  | PBool false => "False"
  | PInt n => NilZero.string_of_int (Z.to_int n)
  | PStr s => s
  | _ => repr x
  end.

(** [x[:8]]. *)
Definition py_slice8 (x : pyval) : result pyval :=
  match x with
  | PStr s => inr (PStr (str_slice_to 8 s))
  | PList items => inr (PList (firstn 8 items))
  | PDict _ => inl dict_slice_error
  | _ => inl TypeError
  end.

(** One line of "Performance by Group". *)
Definition group_line (lines : list string)
    (group_times : pyval * list pyval) : result (list string) :=
  let (group, times) := group_times in
  avg_time <~ average times ;;
  min_time <~ py_min times ;;
  max_time <~ py_max times ;;
  a <~ format_2f avg_time ;;
  lo <~ format_2f min_time ;;
  hi <~ format_2f max_time ;;
  inr (lines ++
       ["- **" ++ py_str group ++ "**: " ++ a ++ "ms avg (min: " ++ lo ++
        "ms, max: " ++ hi ++ "ms)"]%string).

(** The body of [_generate_text_summary] once [data] is known not to be
    empty. *)
Definition summary_body (data : list pyval) : result string :=
  let latest := last data (PDict []) in
  benchmarks <~ py_get_default latest "benchmarks" (PList []) ;;
  timestamp <~ py_get_default latest "timestamp" (PStr "unknown") ;;
  commit <~ py_get_default latest "commit" (PStr "unknown") ;;
  commit8 <~ py_slice8 commit ;;
  total <~ py_len benchmarks ;;
  let summary :=
    [("## üìä Performance Summary (Text)" ++ nl)%string;
     ("**Last Updated**: " ++ py_str timestamp)%string;
     ("**Commit**: " ++ py_str commit8)%string;
     ("**Total Benchmarks**: " ++
      NilZero.string_of_uint (Nat.to_uint total) ++ nl)%string] in
  if py_truthy benchmarks then
    items <~ py_iter benchmarks ;;
    groups <~ for_each add_benchmark [] items ;;
    summary <~ for_each group_line
                 (summary ++ ["### Performance by Group"%string]) groups ;;
    inr (String.concat nl (summary ++ [""%string]))
  else inr (String.concat nl summary).

(** One turn of the inner loop that flattens the runs into rows. *)
Definition flatten_benchmark (timestamp commit : pyval)
    (df_data : list FlattenedRecord) (benchmark : pyval)
    : result (list FlattenedRecord) :=
  name <~ py_getitem benchmark "name" ;;
  group <~ py_getitem benchmark "group" ;;
  mean_ms <~ py_getitem benchmark "mean_ms" ;;
  std_dev_ns <~ py_getitem benchmark "std_dev_ns" ;;
  std_dev_ms <~ div_million std_dev_ns ;;
  inr (df_data ++
       [{| row_timestamp := timestamp;
           row_commit := commit;
           row_benchmark := name;
           row_group := group;
           row_mean_ms := mean_ms;
           row_std_dev_ms := std_dev_ms |}]).

(** One turn of the outer loop. *)
Definition flatten_entry (df_data : list FlattenedRecord) (entry : pyval)
    : result (list FlattenedRecord) :=
  timestamp <~ py_get_default entry "timestamp" (PStr "") ;;
  commit <~ py_get_default entry "commit" (PStr "unknown") ;;
  commit8 <~ py_slice8 commit ;;
  benchmarks <~ py_get_default entry "benchmarks" (PList []) ;;
  items <~ py_iter benchmarks ;;
  for_each (flatten_benchmark timestamp commit8) df_data items.

(** "Prepare data for plotting". *)
Definition flatten_runs (data : list pyval)
    : result (list FlattenedRecord) :=
  for_each flatten_entry [] data.

End Rendering.

(** ** Sample files *)

Definition run_jan : pyval :=
  PDict [("timestamp", PStr "2024-01-01T00:00:00");
         ("commit", PStr "0123456789abcdef");
         ("benchmarks", PList [])].

Definition run_feb : pyval :=
  PDict [("timestamp", PStr "2024-02-01T00:00:00");
         ("commit", PStr "89abcdef01234567");
         ("benchmarks", PList [])].

(** A second run carrying the timestamp of [run_jan]. *)
Definition run_jan_rerun : pyval :=
  PDict [("timestamp", PStr "2024-01-01T00:00:00");
         ("commit", PStr "fedcba9876543210");
         ("benchmarks", PList [])].

(** A decoder for the sample files: three texts decode to the runs above,
    every other text is malformed. *)
Definition sample_json_load (text : string) : result pyval :=
  if (text =? "jan")%string then inr run_jan
  else if (text =? "feb")%string then inr run_feb
  else if (text =? "jan-rerun")%string then inr run_jan_rerun
  else inl JSONDecodeError.

Definition bench : path := ["benchmark-results"].

(** Two runs, listed out of order, beside a stray file. *)
Definition archive_two : node :=
  Dir [("2024-02", Dir [("bench_parsed.json", File "feb")]);
       ("2024-01", Dir [("bench_parsed.json", File "jan")]);
       ("notes.txt", File "kept by hand")].

Definition fs_archive_only : node :=
  Dir [("benchmark-results", Dir [("archive", archive_two)])].

Definition fs_duplicate_latest : node :=
  Dir [("benchmark-results",
        Dir [("archive", archive_two);
             ("latest", Dir [("latest.json", File "raw");
                             ("bench_parsed.json", File "jan-rerun")])])].

(** The middle subdirectory holds a file that does not decode. *)
Definition fs_one_malformed : node :=
  Dir [("benchmark-results",
        Dir [("archive",
              Dir [("2024-02", Dir [("bench_parsed.json", File "feb")]);
                   ("2024-01b", Dir [("bench_parsed.json", File "{{{")]);
                   ("2024-01", Dir [("bench_parsed.json", File "jan")])])])].

(** Two subdirectories whose runs carry one timestamp; the first of them
    holds a second matching file. *)
Definition fs_same_timestamp : node :=
  Dir [("benchmark-results",
        Dir [("archive",
              Dir [("first", Dir [("a_parsed.json", File "jan");
                                  ("b_parsed.json", File "feb")]);
                   ("second", Dir [("c_parsed.json", File "jan-rerun")])])])].

(** A regular file where a parent of the benchmark directory should be. *)
Definition fs_blocked : node := Dir [("results", File "")].

(** A benchmark directory in which [reports] is a regular file. *)
Definition fs_reports_is_file : node :=
  Dir [("benchmark-results", Dir [("reports", File "")])].

Definition fs_empty_bench : node := Dir [("benchmark-results", Dir [])].

Definition fs_no_bench : node := Dir [("src", Dir [])].

(** Which run each sample subdirectory holds. *)
Definition sample_run_of (name : string) : pyval :=
  if (name =? "2024-01")%string then run_jan else run_feb.

(** Stand-ins for the summary and the plotting stack. *)
Definition sample_summary (data : list pyval) : result string :=
  inr "## Performance Summary (Text)".

Definition sample_flatten (data : list pyval) : result (list unit) :=
  inr (map (fun _ => tt) data).

Definition sample_to_frame (rows : list unit) : result unit := inr tt.

Definition sample_plot (c : chart) (df : unit) : result string :=
  inr "PNG".

(** A decoder for further sample files: two runs without a timestamp, a
    JSON array, a text that is not valid UTF-8; the rest as above. *)
Definition run_untimed_a : pyval :=
  PDict [("commit", PStr "aaaaaaaa"); ("benchmarks", PList [])].

Definition run_untimed_b : pyval :=
  PDict [("commit", PStr "bbbbbbbb"); ("benchmarks", PList [])].

Definition sample_json_load2 (text : string) : result pyval :=
  if (text =? "untimed-a")%string then inr run_untimed_a
  else if (text =? "untimed-b")%string then inr run_untimed_b
  else if (text =? "array")%string then inr (PList [])
  else if (text =? "not-utf8")%string then inl UnicodeDecodeError
  else sample_json_load text.

Definition latest_with (text : string) : string * node :=
  ("latest", Dir [("latest.json", File "raw");
                  ("bench_parsed.json", File text)]).

Definition archive_with (texts : list (string * string)) : string * node :=
  ("archive",
   Dir (map (fun nt => (fst nt, Dir [("bench_parsed.json", File (snd nt))]))
          texts)).

Definition bench_fs (entries : list (string * node)) : node :=
  Dir [("benchmark-results", Dir entries)].

Definition fs_fresh_latest : node :=
  bench_fs [archive_with [("2024-01", "jan")]; latest_with "feb"].

Definition fs_untimed : node :=
  bench_fs [archive_with [("2024-01", "untimed-a")];
            latest_with "untimed-b"].

Definition fs_latest_array : node :=
  bench_fs [archive_with []; latest_with "array"].

Definition fs_archived_array : node :=
  bench_fs [archive_with [("2024-01", "array")]; latest_with "jan"].

Definition fs_not_utf8 : node :=
  bench_fs [archive_with [("2024-01", "jan"); ("2024-02", "not-utf8");
                          ("2024-03", "feb")]].

Definition fs_archive_is_file : node :=
  bench_fs [("archive", File "not a directory")].

Definition fs_empty_reports : node := bench_fs [("reports", Dir [])].

(** Stand-ins for the floating-point helpers. *)
Definition sample_repr (x : pyval) : string := "<value>".

Definition sample_stat (times : list pyval) : result pyval :=
  inr (hd PNone times).

Definition sample_format (x : pyval) : result string := inr "0.00".

Definition sample_div (x : pyval) : result pyval := inr x.

Definition failing_style : result unit := inl (LibraryError "OSError").

Definition bench_sample (name group : string) (mean : Z) : pyval :=
  PDict [("name", PStr name); ("group", PStr group);
         ("mean_ms", PInt mean); ("std_dev_ns", PInt 1000)].

Definition run_with_samples : pyval :=
  PDict [("timestamp", PStr "2024-03-01T00:00:00");
         ("commit", PStr "0123456789abcdef");
         ("benchmarks",
          PList [bench_sample "parse" "context" 3;
                 bench_sample "rank" "ranking" 5;
                 bench_sample "extract" "context" 4])].

Definition run_missing_group : pyval :=
  PDict [("benchmarks",
          PList [PDict [("name", PStr "parse"); ("mean_ms", PInt 3)]])].

Section Script.

(** [json.load] on the text of a file. *)
Variable json_load : string -> result pyval.

(** Whether matplotlib, seaborn and pandas were imported. *)
Variable VISUALIZATION_AVAILABLE : bool.

(** [plt.style.use('seaborn-v0_8')] and [sns.set_palette("husl")]. *)
Variable style_setup : result unit.

(** The body of [_generate_text_summary] for a non-empty list: the header
    of the last run and, per group, the mean, minimum and maximum of
    [mean_ms] printed to two decimals (floating point). *)
Variable summary_of : list pyval -> result string.

(** The flattening loop of [generate_performance_trends] (one row per
    benchmark, [std_dev_ns / 1000000] in floating point), then
    [pd.DataFrame] and [pd.to_datetime]. *)
Variables row frame : Type.
Variable flatten : list pyval -> result (list row).
Variable to_frame : list row -> result frame.

(** The drawing calls of one chart; the result is the image [savefig]
    writes. *)
Variable plot : chart -> frame -> result string.

Definition __init__ (benchmark_dir : path) : result BenchmarkVisualizer :=
  _ <~ (if VISUALIZATION_AVAILABLE then style_setup else inr tt) ;;
  inr (attributes benchmark_dir).

(** [with open(p, 'r') as f: json.load(f)]. *)
Definition open_json_load (fs : node) (p : path) : result pyval :=
  match lookup fs p with
  | Some (File content) => json_load content
  | Some (Dir _) => inl IsADirectoryError
  | None => inl FileNotFoundError
  end.

(** One turn of the archive loop. *)
Definition load_archive_subdir (fs : node) (data : list pyval)
    (archive_subdir : path) : result (list pyval) :=
  if negb (is_dir fs archive_subdir) then inr data
  else
    match glob_parsed_json fs archive_subdir with
    | [] => inr data
    | first :: _ =>
        try_except
          (benchmark_data <~ open_json_load fs first ;;
           inr (data ++ [benchmark_data]))
          data
    end.

(** What the archive loop appends for one subdirectory when no exception
    leaves its body. *)
Definition contribution (fs : node) (archive_subdir : path) : list pyval :=
  match load_archive_subdir fs [] archive_subdir with
  | inr appended => appended
  | inl _ => []
  end.

(** "Load from archive directory". *)
Definition load_archive (self : BenchmarkVisualizer) (fs : node)
    : result (list pyval) :=
  if exists_ fs (archive_dir self) then
    subdirs <~ iterdir fs (archive_dir self) ;;
    for_each (load_archive_subdir fs) [] (sorted subdirs)
  else inr [].

(** "Load latest data". *)
Definition load_latest (self : BenchmarkVisualizer) (fs : node)
    (data : list pyval) : result (list pyval) :=
  let latest_parsed := latest_dir self // "latest.json" in
  if exists_ fs latest_parsed then
    try_except
      (match glob_parsed_json fs (latest_dir self) with
       | [] => inr data
       | first :: _ =>
           latest_data <~ open_json_load fs first ;;
           present <~ any_same_timestamp latest_data data ;;
           inr (if present then data else data ++ [latest_data])
       end)
      data
  else inr data.

Definition load_benchmark_data (self : BenchmarkVisualizer) (fs : node)
    : result (list pyval) :=
  data <~ load_archive self fs ;;
  load_latest self fs data.

Definition _generate_text_summary (data : list pyval) : result string :=
  match data with
  | [] => inr no_data_message
  | _ :: _ => summary_of data
  end.

Definition chart_file (c : chart) : string :=
  match c with
  | OverallTrends => "performance_trends.png"
  | GroupPerformance => "group_performance.png"
  | RecentChanges => "recent_changes.png"
  | PerformanceDistribution => "performance_distribution.png"
  end.

Definition chart_markdown (c : chart) : string :=
  match c with
  | OverallTrends =>
      "![Performance Trends](./performance_trends.png)" ++ nl
  | GroupPerformance =>
      "![Group Performance](./group_performance.png)" ++ nl
  | RecentChanges =>
      "![Recent Changes](./recent_changes.png)" ++ nl
  | PerformanceDistribution =>
      "![Performance Distribution](./performance_distribution.png)" ++ nl
  end%string.

(** The shape shared by the four [_generate_*_chart] methods: draw, save
    under [reports_dir], return the image reference. *)
Definition generate_chart (self : BenchmarkVisualizer) (c : chart)
    (df : frame) : M string :=
  image <- lift (plot c df) ;;
  _ <- writes (fun fs =>
         write_text fs (reports_dir self // chart_file c) image) ;;
  ret (chart_markdown c).

Definition _generate_overall_trends_chart self df :=
  generate_chart self OverallTrends df.
Definition _generate_group_performance_chart self df :=
  generate_chart self GroupPerformance df.
Definition _generate_recent_changes_chart self df :=
  generate_chart self RecentChanges df.
Definition _generate_distribution_chart self df :=
  generate_chart self PerformanceDistribution df.

Definition generate_performance_trends (self : BenchmarkVisualizer)
    (data : list pyval) : M string :=
  if negb VISUALIZATION_AVAILABLE || match data with [] => true | _ => false end
  then lift (_generate_text_summary data)
  else
    df_data <- lift (flatten data) ;;
    match df_data with
    | [] => lift (_generate_text_summary data)
    | _ :: _ =>
        df <- lift (to_frame df_data) ;;
        c1 <- _generate_overall_trends_chart self df ;;
        c2 <- _generate_group_performance_chart self df ;;
        c3 <- _generate_recent_changes_chart self df ;;
        c4 <- _generate_distribution_chart self df ;;
        ret (String.concat nl [c1; c2; c3; c4])
    end.

Definition run (self : BenchmarkVisualizer) (now_html now_readme : datetime)
    : M unit :=
  _ <- writes (fun fs => mkdir fs (reports_dir self)) ;;
  data <- reads (load_benchmark_data self) ;;
  trends_content <- generate_performance_trends self data ;;
  let html_content := generate_index_html now_html trends_content in
  _ <- writes (fun fs =>
         write_text fs (reports_dir self // "index.html") html_content) ;;
  writes (fun fs =>
    write_text fs (reports_dir self // "README.md")
      (readme_text trends_content now_readme)).

(** [main]: [BENCHMARK_DIR] is the value of the environment variable, when
    set. *)
Definition main (BENCHMARK_DIR : option path)
    (now_html now_readme : datetime) : M unit :=
  let benchmark_dir := environ_get BENCHMARK_DIR ["benchmark-results"] in
  present <- reads (fun fs => inr (exists_ fs benchmark_dir)) ;;
  if negb present then
    writes (fun fs => mkdir_parents fs benchmark_dir)
  else
    visualizer <- lift (__init__ benchmark_dir) ;;
    try_except_Exception
      (run visualizer now_html now_readme)
      (fun e => ret tt).

(** ** String facts *)

Lemma append_assoc (a b c : string) :
  ((a ++ b) ++ c = a ++ (b ++ c))%string.
Proof.
  induction a as [|ch a IH]; simpl; [reflexivity | now rewrite IH].
Qed.

Lemma append_empty_r (a : string) : (a ++ "")%string = a.
Proof.
  induction a as [|ch a IH]; simpl; [reflexivity | now rewrite IH].
Qed.

Lemma append_length (a b : string) :
  String.length (a ++ b) = String.length a + String.length b.
Proof.
  induction a as [|ch a IH]; simpl; [reflexivity | now rewrite IH].
Qed.

Lemma append_inj_l (a x y : string) :
  (a ++ x = a ++ y)%string -> x = y.
Proof.
  induction a as [|ch a IH]; simpl; intros H; [exact H | ].
  injection H as H. now apply IH.
Qed.

Lemma append_inj_r (r x y : string) :
  (x ++ r = y ++ r)%string -> x = y.
Proof.
  revert y. induction x as [|c x IH]; intros [|d y] H; simpl in H.
  - reflexivity.
  - apply (f_equal String.length) in H. simpl in H.
    rewrite append_length in H. lia.
  - apply (f_equal String.length) in H. simpl in H.
    rewrite append_length in H. lia.
  - injection H as Hc H. subst d. f_equal. now apply IH.
Qed.

Lemma contains_refl (s : string) : contains s s.
Proof.
  exists ""%string, ""%string. simpl. now rewrite append_empty_r.
Qed.

Lemma contains_append (sub s pre suf : string) :
  contains sub s -> contains sub (pre ++ s ++ suf).
Proof.
  intros (p & q & ->). exists (pre ++ p)%string, (q ++ suf)%string.
  now rewrite !append_assoc.
Qed.

Lemma contains_concat (sep sub line : string) (ls : list string) :
  In line ls -> contains sub line -> contains sub (String.concat sep ls).
Proof.
  intros Hin Hsub. induction ls as [|l ls IH]; [destruct Hin | ].
  destruct ls as [|l' ls].
  - destruct Hin as [-> | []]. exact Hsub.
  - change (String.concat sep (l :: l' :: ls))
      with (l ++ sep ++ String.concat sep (l' :: ls))%string.
    destruct Hin as [-> | Hin].
    + apply (contains_append sub line ""%string). exact Hsub.
    + specialize (IH Hin).
      apply (contains_append sub _ (l ++ sep)%string ""%string) in IH.
      rewrite append_empty_r, append_assoc in IH. exact IH.
Qed.

(** ** The trends block and the page *)

Lemma trends_of_no_runs (self : BenchmarkVisualizer) (fs : node) :
  generate_performance_trends self [] fs = (inr no_data_message, fs).
Proof.
  unfold generate_performance_trends.
  destruct VISUALIZATION_AVAILABLE; reflexivity.
Qed.

(** C5: with no runs, [generate_performance_trends] returns exactly the
    sentence "No benchmark data available for visualization." followed by
    one newline, whether or not the plotting stack was imported, and
    writes nothing. *)
Theorem generate_performance_trends_no_data :
  forall (self : BenchmarkVisualizer) (fs : node),
    generate_performance_trends self [] fs =
      (inr ("No benchmark data available for visualization." ++ nl)%string,
       fs).
Proof.
  intros self fs. apply trends_of_no_runs.
Qed.

Lemma page_embeds_content (now : datetime) (trends_content : string) :
  contains trends_content (generate_index_html now trends_content).
Proof.
  unfold generate_index_html.
  apply contains_concat with (line := ("        " ++ trends_content)%string).
  - apply in_or_app. right. apply in_or_app. right.
    apply in_or_app. right. apply in_or_app. left. left. reflexivity.
  - exists "        "%string, ""%string. now rewrite append_empty_r.
Qed.

(** C6: whatever the trends content, the page [generate_index_html]
    returns contains the title text "LSPbridge Benchmark Dashboard" and
    contains the trends content itself, character for character. *)
Theorem generate_index_html_embeds :
  forall (now : datetime) (trends_content : string),
    contains "LSPbridge Benchmark Dashboard"
      (generate_index_html now trends_content) /\
    contains trends_content (generate_index_html now trends_content).
Proof.
  intros now tc. split; [ | apply page_embeds_content].
  unfold generate_index_html.
  apply contains_concat
    with (line := "    <title>LSPbridge Benchmark Dashboard</title>"%string).
  - apply in_or_app. left. unfold html_head.
    do 5 right. left. reflexivity.
  - exists "    <title>"%string, "</title>"%string. reflexivity.
Qed.

Lemma concat_split (sep x : string) (A B : list string) :
  B <> [] ->
  String.concat sep (A ++ x :: B) =
    (lines_before sep A ++ x ++ sep ++ String.concat sep B)%string.
Proof.
  intros HB. induction A as [|a A IH].
  - destruct B; [congruence | reflexivity].
  - cbn [lines_before]. rewrite !append_assoc, <- IH.
    destruct A; reflexivity.
Qed.

(** C7, as amended: the page is a function of the trends content and of
    the clock reading printed to the second, and of nothing else: for the
    same content two pages are equal exactly when the two printed times
    are. *)
Theorem generate_index_html_clock :
  forall (now1 now2 : datetime) (trends_content : string),
    generate_index_html now1 trends_content =
      generate_index_html now2 trends_content <->
    strftime now1 = strftime now2.
Proof.
  intros now1 now2 tc. unfold generate_index_html. cbn [app].
  rewrite !concat_split by (unfold html_middle; discriminate).
  split.
  - intros H. apply append_inj_l in H.
    rewrite !append_assoc in H. apply append_inj_l in H.
    now apply append_inj_r in H.
  - now intros ->.
Qed.

(** ** Sorting *)

Lemma compare_lt_trans (a b c : string) :
  String.compare a b = Lt -> String.compare b c = Lt ->
  String.compare a c = Lt.
Proof.
  intros Hab Hbc.
  exact (@StrictOrder_Transitive _ _ String_as_OT.lt_strorder a b c Hab Hbc).
Qed.

Lemma compare_refl (a : string) : String.compare a a = Eq.
Proof.
  destruct (String.compare a a) eqn:H; [reflexivity | | ].
  - now apply (@StrictOrder_Irreflexive _ _ String_as_OT.lt_strorder a) in H.
  - pose proof (String.compare_antisym a a) as Ha.
    rewrite H in Ha. discriminate.
Qed.

Lemma leb_ltb (a b : string) : String.leb a b = negb (String.ltb b a).
Proof.
  unfold String.leb, String.ltb. rewrite (String.compare_antisym a b).
  now destruct (String.compare b a).
Qed.

Lemma leb_trans (a b c : string) :
  String.leb a b = true -> String.leb b c = true -> String.leb a c = true.
Proof.
  unfold String.leb.
  destruct (String.compare a b) eqn:Hab; try discriminate;
    destruct (String.compare b c) eqn:Hbc; try discriminate; intros _ _.
  - apply String.compare_eq_iff in Hab, Hbc. subst.
    now rewrite compare_refl.
  - apply String.compare_eq_iff in Hab. subst. now rewrite Hbc.
  - apply String.compare_eq_iff in Hbc. subst. now rewrite Hab.
  - now rewrite (compare_lt_trans a b c).
Qed.

Lemma path_ltb_children (p : path) (a b : string) :
  path_ltb (p // a) (p // b) = String.ltb a b.
Proof.
  unfold joinpath. induction p as [|x p IH]; simpl.
  - unfold String.ltb. now destruct (String.compare a b).
  - now rewrite compare_refl.
Qed.

Lemma sorted_children (p : path) (names : list string) :
  sorted (map (joinpath p) names) =
    map (joinpath p) (sorted_by String.ltb names).
Proof.
  unfold sorted. induction names as [|x names IH]; simpl; [reflexivity | ].
  rewrite IH. generalize (sorted_by String.ltb names) as l.
  induction l as [|y l IHl]; simpl; [reflexivity | ].
  rewrite path_ltb_children. destruct (String.ltb y x); simpl;
    [now rewrite IHl | reflexivity].
Qed.

Lemma insert_sorted_perm {A : Type} (ltb : A -> A -> bool) (x : A)
    (l : list A) : Permutation (insert_sorted ltb x l) (x :: l).
Proof.
  induction l as [|y l IH]; simpl; [reflexivity | ].
  destruct (ltb y x); [ | reflexivity].
  rewrite IH. apply perm_swap.
Qed.

Lemma sorted_by_perm {A : Type} (ltb : A -> A -> bool) (l : list A) :
  Permutation (sorted_by ltb l) l.
Proof.
  induction l as [|x l IH]; simpl; [reflexivity | ].
  rewrite insert_sorted_perm. now constructor.
Qed.

Lemma insert_sorted_names (x : string) (l : list string) :
  StronglySorted (fun a b => String.leb a b = true) l ->
  StronglySorted (fun a b => String.leb a b = true)
    (insert_sorted String.ltb x l).
Proof.
  induction 1 as [|y l Hl IH Hy]; simpl.
  - repeat constructor.
  - destruct (String.ltb y x) eqn:Hyx.
    + constructor; [exact IH | ].
      rewrite Forall_forall in *. intros z Hz.
      apply (Permutation_in _ (insert_sorted_perm _ _ _)) in Hz.
      destruct Hz as [<- | Hz]; [ | now apply Hy].
      unfold String.leb, String.ltb in *.
      now destruct (String.compare y x).
    + assert (Hxy : String.leb x y = true) by now rewrite leb_ltb, Hyx.
      constructor; [now constructor | ].
      constructor; [exact Hxy | ].
      rewrite Forall_forall in *. intros z Hz.
      eapply leb_trans; [exact Hxy | now apply Hy].
Qed.

Lemma sorted_names (l : list string) :
  StronglySorted (fun a b => String.leb a b = true)
    (sorted_by String.ltb l).
Proof.
  induction l as [|x l IH]; simpl; [constructor | ].
  now apply insert_sorted_names.
Qed.

Lemma filter_strongly_sorted {A : Type} (R : A -> A -> Prop)
    (f : A -> bool) (l : list A) :
  StronglySorted R l -> StronglySorted R (filter f l).
Proof.
  induction 1 as [|x l Hl IH Hx]; simpl; [constructor | ].
  destruct (f x); [ | exact IH].
  constructor; [exact IH | ].
  rewrite Forall_forall in *. intros y Hy.
  apply filter_In in Hy. now apply Hx.
Qed.

Lemma filter_perm {A : Type} (f : A -> bool) (l l' : list A) :
  Permutation l l' -> Permutation (filter f l) (filter f l').
Proof.
  induction 1 as [ | x l l' _ IH | x y l | l l' l'' _ IH1 _ IH2]; simpl.
  - constructor.
  - destruct (f x); [now constructor | exact IH].
  - destruct (f x), (f y); try reflexivity. apply perm_swap.
  - now rewrite IH1.
Qed.

(** ** The archive loop *)

Lemma load_archive_subdir_appends (fs : node) (data : list pyval)
    (p : path) :
  load_archive_subdir fs data p =
    (appended <~ load_archive_subdir fs [] p ;; inr (data ++ appended)).
Proof.
  unfold load_archive_subdir.
  destruct (is_dir fs p); simpl; [ | now rewrite app_nil_r].
  destruct (glob_parsed_json fs p) as [|first rest]; simpl;
    [now rewrite app_nil_r | ].
  destruct (open_json_load fs first) as [e | v]; simpl; [ | reflexivity].
  destruct (handled e); simpl; [now rewrite app_nil_r | reflexivity].
Qed.

Lemma for_each_contributions (fs : node) (l : list path) :
  (forall p, In p l -> forall e, load_archive_subdir fs [] p <> inl e) ->
  forall acc,
    for_each (load_archive_subdir fs) acc l =
      inr (acc ++ flat_map (contribution fs) l).
Proof.
  induction l as [|p l IH]; intros Hl acc; simpl.
  - now rewrite app_nil_r.
  - rewrite load_archive_subdir_appends. unfold contribution at 1.
    destruct (load_archive_subdir fs [] p) as [e | appended] eqn:Hp.
    + exfalso. now apply (Hl p (or_introl eq_refl) e).
    + simpl. rewrite IH by (intros q Hq; apply Hl; now right).
      now rewrite app_assoc.
Qed.

Lemma subdir_not_dir (fs : node) (p : path) :
  is_dir fs p = false -> load_archive_subdir fs [] p = inr [].
Proof. unfold load_archive_subdir. now intros ->. Qed.

Lemma subdir_value (fs : node) (p first : path) (rest : list path)
    (v : pyval) :
  is_dir fs p = true ->
  glob_parsed_json fs p = first :: rest ->
  open_json_load fs first = inr v ->
  load_archive_subdir fs [] p = inr [v].
Proof. unfold load_archive_subdir. now intros -> -> ->. Qed.

Lemma subdir_skipped (fs : node) (p : path) :
  (glob_parsed_json fs p = [] \/
   exists first rest e,
     glob_parsed_json fs p = first :: rest /\
     open_json_load fs first = inl e /\ handled e = true) ->
  load_archive_subdir fs [] p = inr [].
Proof.
  unfold load_archive_subdir. destruct (is_dir fs p); [ | reflexivity].
  intros [-> | (first & rest & e & -> & -> & He)]; simpl;
    [reflexivity | now rewrite He].
Qed.

Lemma subdir_clean (fs : node) (p : path) :
  (forall first rest e,
     glob_parsed_json fs p = first :: rest ->
     open_json_load fs first = inl e -> handled e = true) ->
  forall e, load_archive_subdir fs [] p <> inl e.
Proof.
  intros H e. unfold load_archive_subdir.
  destruct (is_dir fs p); [ | discriminate]. simpl.
  destruct (glob_parsed_json fs p) as [|first rest]; [discriminate | ].
  destruct (open_json_load fs first) as [e' | v] eqn:Hopen;
    [ | discriminate].
  simpl. now rewrite (H first rest e' eq_refl Hopen).
Qed.

Lemma contribution_length (fs : node) (p : path) :
  List.length (contribution fs p) <= (if is_dir fs p then 1 else 0).
Proof.
  unfold contribution, load_archive_subdir.
  destruct (is_dir fs p); simpl; [ | lia].
  destruct (glob_parsed_json fs p) as [|first rest]; simpl; [lia | ].
  destruct (open_json_load fs first) as [e | v]; simpl; [ | lia].
  destruct (handled e); simpl; lia.
Qed.

Lemma flat_map_map {A B C : Type} (f : B -> list C) (g : A -> B)
    (l : list A) :
  flat_map f (map g l) = flat_map (fun x => f (g x)) l.
Proof.
  induction l as [|x l IH]; simpl; [reflexivity | now rewrite IH].
Qed.

Lemma flat_map_select {A B : Type} (c : A -> list B) (keep : A -> bool)
    (g : A -> B) (l : list A) :
  (forall x, In x l -> c x = if keep x then [g x] else []) ->
  flat_map c l = map g (filter keep l).
Proof.
  induction l as [|x l IH]; intros H; simpl; [reflexivity | ].
  rewrite (H x (or_introl eq_refl)), IH by (intros y Hy; apply H; now right).
  now destruct (keep x).
Qed.

Lemma flat_map_length_le {A B : Type} (c : A -> list B) (keep : A -> bool)
    (l : list A) :
  (forall x, List.length (c x) <= (if keep x then 1 else 0)) ->
  List.length (flat_map c l) <= List.length (filter keep l).
Proof.
  intros H. induction l as [|x l IH]; simpl; [lia | ].
  rewrite length_app. specialize (H x).
  destruct (keep x); simpl; lia.
Qed.

Lemma flat_map_two_positions {A B : Type} (c : A -> list B) (l : list A)
    (a b : A) (x y : B) :
  In a l -> In b l -> a <> b -> c a = [x] -> c b = [y] ->
  exists i j, i <> j /\
    nth_error (flat_map c l) i = Some x /\
    nth_error (flat_map c l) j = Some y.
Proof.
  intros Ha Hb Hab Hx Hy.
  destruct (in_split a l Ha) as (l1 & l2 & ->).
  rewrite flat_map_app. simpl. rewrite Hx. simpl.
  set (F1 := flat_map c l1). set (F2 := flat_map c l2).
  assert (Hi : nth_error (F1 ++ x :: F2) (List.length F1) = Some x).
  { rewrite nth_error_app2 by lia. now rewrite Nat.sub_diag. }
  apply in_app_or in Hb. destruct Hb as [Hb | [Hb | Hb]];
    [ | now elim Hab | ].
  - assert (Hin : In y F1).
    { apply in_flat_map. exists b. split; [exact Hb | ].
      rewrite Hy. now left. }
    destruct (In_nth_error _ _ Hin) as [j Hj].
    assert (Hlt : j < List.length F1)
      by (apply nth_error_Some; now rewrite Hj).
    exists (List.length F1), j. repeat split; [lia | exact Hi | ].
    now rewrite nth_error_app1.
  - assert (Hin : In y F2).
    { apply in_flat_map. exists b. split; [exact Hb | ].
      rewrite Hy. now left. }
    destruct (In_nth_error _ _ Hin) as [j Hj].
    exists (List.length F1), (List.length F1 + S j).
    repeat split; [lia | exact Hi | ].
    rewrite nth_error_app2 by lia.
    replace (List.length F1 + S j - List.length F1) with (S j) by lia.
    exact Hj.
Qed.

Lemma load_archive_flat_map (self : BenchmarkVisualizer) (fs : node)
    (es : list (string * node)) :
  lookup fs (archive_dir self) = Some (Dir es) ->
  (forall name e, In name (map fst es) ->
     load_archive_subdir fs [] (archive_dir self // name) <> inl e) ->
  load_archive self fs =
    inr (flat_map (fun name => contribution fs (archive_dir self // name))
           (sorted_by String.ltb (map fst es))).
Proof.
  intros Hdir Hclean. unfold load_archive, exists_, iterdir.
  rewrite Hdir. simpl.
  rewrite <- (map_map fst (joinpath (archive_dir self))), sorted_children.
  rewrite for_each_contributions.
  - simpl. now rewrite flat_map_map.
  - intros p Hp e. apply in_map_iff in Hp. destruct Hp as (name & <- & Hn).
    apply Hclean.
    exact (Permutation_in _ (sorted_by_perm String.ltb _) Hn).
Qed.

Lemma load_archive_select (self : BenchmarkVisualizer) (fs : node)
    (es : list (string * node)) (keep : string -> bool)
    (run_of : string -> pyval) :
  lookup fs (archive_dir self) = Some (Dir es) ->
  (forall name, In name (map fst es) ->
     load_archive_subdir fs [] (archive_dir self // name) =
       inr (if keep name then [run_of name] else [])) ->
  load_archive self fs =
    inr (map run_of (filter keep (sorted_by String.ltb (map fst es)))).
Proof.
  intros Hdir Hsub. rewrite (load_archive_flat_map self fs es Hdir).
  - f_equal. apply flat_map_select. intros name Hn.
    unfold contribution. rewrite Hsub; [reflexivity | ].
    exact (Permutation_in _ (sorted_by_perm String.ltb _) Hn).
  - intros name e Hn. now rewrite Hsub.
Qed.

Lemma load_latest_no_data (self : BenchmarkVisualizer) (fs : node)
    (data : list pyval) :
  no_latest_data self fs = true ->
  load_latest self fs data = inr data.
Proof.
  unfold no_latest_data, load_latest.
  destruct (exists_ fs (latest_dir self // "latest.json")); [ | reflexivity].
  now destruct (glob_parsed_json fs (latest_dir self)).
Qed.

Lemma load_latest_extends (self : BenchmarkVisualizer) (fs : node)
    (data out : list pyval) :
  load_latest self fs data = inr out -> exists extra, out = data ++ extra.
Proof.
  unfold load_latest.
  destruct (exists_ fs (latest_dir self // "latest.json")).
  2: { intros [= <-]. exists []. now rewrite app_nil_r. }
  destruct (glob_parsed_json fs (latest_dir self)) as [|first rest]; simpl.
  { intros [= <-]. exists []. now rewrite app_nil_r. }
  destruct (open_json_load fs first) as [e | latest_data]; simpl.
  { destruct (handled e); [ | discriminate].
    intros [= <-]. exists []. now rewrite app_nil_r. }
  destruct (any_same_timestamp latest_data data) as [e | [|]]; simpl.
  - destruct (handled e); [ | discriminate].
    intros [= <-]. exists []. now rewrite app_nil_r.
  - intros [= <-]. exists []. now rewrite app_nil_r.
  - intros [= <-]. now exists [latest_data].
Qed.

Lemma any_same_timestamp_found (latest_data : pyval) (data : list pyval)
    (s : string) :
  Forall (fun d => is_dict d = true) data ->
  py_get latest_data "timestamp" = inr (PStr s) ->
  (exists d, In d data /\ py_get d "timestamp" = inr (PStr s)) ->
  any_same_timestamp latest_data data = inr true.
Proof.
  intros Hdict Hlatest. induction Hdict as [|d0 data Hd0 _ IH].
  - intros (d & [] & _).
  - intros (d & Hin & Hd). simpl. rewrite Hlatest.
    destruct d0 as [ | | | | | |items]; try discriminate. simpl.
    destruct Hin as [<- | Hin].
    + simpl in Hd. injection Hd as ->. simpl. now rewrite String.eqb_refl.
    + destruct (py_eq _ (PStr s)); [reflexivity | ].
      apply IH. now exists d.
Qed.

(** ** Loading *)

(** C1: when the run in [latest/] carries, as a string, the timestamp of
    a run loaded from the archive, [load_benchmark_data] does not append
    it: it returns the archived runs, and as many of them. *)
Theorem latest_duplicate_not_appended :
  forall (self : BenchmarkVisualizer) (fs : node) (data : list pyval)
         (first : path) (rest : list path) (latest_data : pyval)
         (s : string),
    load_archive self fs = inr data ->
    Forall (fun d => is_dict d = true) data ->
    exists_ fs (latest_dir self // "latest.json") = true ->
    glob_parsed_json fs (latest_dir self) = first :: rest ->
    open_json_load fs first = inr latest_data ->
    py_get latest_data "timestamp" = inr (PStr s) ->
    (exists d, In d data /\ py_get d "timestamp" = inr (PStr s)) ->
    exists returned,
      load_benchmark_data self fs = inr returned /\
      returned = data /\
      List.length returned = List.length data.
Proof.
  intros self fs data first rest latest_data s
    Harch Hdict Hmark Hglob Hopen Hts Hdup.
  exists data. repeat split.
  unfold load_benchmark_data. rewrite Harch. simpl.
  unfold load_latest. rewrite Hmark, Hglob, Hopen. simpl.
  now rewrite (any_same_timestamp_found latest_data data s).
Qed.

(** C2: an archive whose subdirectories each hold exactly one file
    matching [*_parsed.json], a valid one, and no latest data: the runs
    returned are those of the subdirectories, one each, in the sorted
    order of the subdirectory names. *)
Theorem load_archive_in_sorted_order :
  forall (self : BenchmarkVisualizer) (fs : node)
         (es : list (string * node)) (run_of : string -> pyval),
    lookup fs (archive_dir self) = Some (Dir es) ->
    (forall name,
       In name (map fst es) ->
       is_dir fs (archive_dir self // name) = true ->
       exists file,
         glob_parsed_json fs (archive_dir self // name) = [file] /\
         open_json_load fs file = inr (run_of name)) ->
    no_latest_data self fs = true ->
    let is_subdir := fun name => is_dir fs (archive_dir self // name) in
    let subdirs := filter is_subdir (sorted_by String.ltb (map fst es)) in
    load_benchmark_data self fs = inr (map run_of subdirs) /\
    List.length (map run_of subdirs) =
      List.length (filter is_subdir (map fst es)) /\
    Sorted (fun a b => String.leb a b = true) subdirs /\
    Permutation subdirs (filter is_subdir (map fst es)).
Proof.
  intros self fs es run_of Hdir Hvalid Hlatest is_subdir subdirs.
  assert (Hperm : Permutation subdirs (filter is_subdir (map fst es)))
    by apply filter_perm, sorted_by_perm.
  repeat split.
  - unfold load_benchmark_data.
    rewrite (load_archive_select self fs es is_subdir run_of Hdir).
    + simpl. now apply load_latest_no_data.
    + intros name Hn. unfold is_subdir.
      destruct (is_dir fs (archive_dir self // name)) eqn:Hd.
      * destruct (Hvalid name Hn Hd) as (file & Hglob & Hopen).
        now apply (subdir_value fs _ file []).
      * now apply subdir_not_dir.
  - rewrite length_map. now apply Permutation_length.
  - apply StronglySorted_Sorted, filter_strongly_sorted, sorted_names.
  - exact Hperm.
Qed.

(** C3: one subdirectory whose matching file is malformed or missing is
    left out, and nothing else is: the archive loop goes on and returns
    the runs of all the other subdirectories, in order. *)
Theorem malformed_subdir_skipped :
  forall (self : BenchmarkVisualizer) (fs : node)
         (es : list (string * node)) (bad : string)
         (run_of : string -> pyval),
    lookup fs (archive_dir self) = Some (Dir es) ->
    In bad (map fst es) ->
    is_dir fs (archive_dir self // bad) = true ->
    (glob_parsed_json fs (archive_dir self // bad) = [] \/
     exists first rest e,
       glob_parsed_json fs (archive_dir self // bad) = first :: rest /\
       open_json_load fs first = inl e /\
       (e = JSONDecodeError \/ e = FileNotFoundError)) ->
    (forall name,
       In name (map fst es) -> name <> bad ->
       is_dir fs (archive_dir self // name) = true ->
       exists first rest,
         glob_parsed_json fs (archive_dir self // name) = first :: rest /\
         open_json_load fs first = inr (run_of name)) ->
    let other_subdir := fun name =>
      negb (String.eqb name bad) && is_dir fs (archive_dir self // name) in
    let others := filter other_subdir (sorted_by String.ltb (map fst es)) in
    load_archive self fs = inr (map run_of others) /\
    load_benchmark_data self fs = load_latest self fs (map run_of others).
Proof.
  intros self fs es bad run_of Hdir Hin Hbad_dir Hbad Hgood
    other_subdir others.
  assert (Harch : load_archive self fs = inr (map run_of others)).
  { apply (load_archive_select self fs es other_subdir run_of Hdir).
    intros name Hn. unfold other_subdir.
    destruct (String.eqb_spec name bad) as [-> | Hne]; simpl.
    - apply subdir_skipped.
      destruct Hbad as [Hnone | (first & rest & e & Hglob & Hopen & He)];
        [now left | right].
      exists first, rest, e. repeat split; try assumption.
      now destruct He as [-> | ->].
    - destruct (is_dir fs (archive_dir self // name)) eqn:Hd.
      + destruct (Hgood name Hn Hne Hd) as (first & rest & Hglob & Hopen).
        now apply (subdir_value fs _ first rest).
      + now apply subdir_not_dir. }
  split; [exact Harch | ].
  unfold load_benchmark_data. now rewrite Harch.
Qed.

(** C10: the archive loop compares no timestamps.  Two subdirectories
    whose first matching files decode to runs with equal timestamps both
    contribute their run; whatever else a subdirectory holds, it
    contributes the run of its first matching file only, so each
    subdirectory yields at most one run; and the runs of the archive open
    whatever [load_benchmark_data] returns. *)
Theorem archive_keeps_equal_timestamps :
  forall (self : BenchmarkVisualizer) (fs : node)
         (es : list (string * node)) (name1 name2 : string)
         (first1 first2 : path) (rest1 rest2 : list path)
         (run1 run2 timestamp : pyval),
    lookup fs (archive_dir self) = Some (Dir es) ->
    In name1 (map fst es) -> In name2 (map fst es) -> name1 <> name2 ->
    is_dir fs (archive_dir self // name1) = true ->
    glob_parsed_json fs (archive_dir self // name1) = first1 :: rest1 ->
    open_json_load fs first1 = inr run1 ->
    is_dir fs (archive_dir self // name2) = true ->
    glob_parsed_json fs (archive_dir self // name2) = first2 :: rest2 ->
    open_json_load fs first2 = inr run2 ->
    py_get run1 "timestamp" = inr timestamp ->
    py_get run2 "timestamp" = inr timestamp ->
    (forall name first rest e,
       In name (map fst es) ->
       glob_parsed_json fs (archive_dir self // name) = first :: rest ->
       open_json_load fs first = inl e -> handled e = true) ->
    exists archived,
      load_archive self fs = inr archived /\
      (exists i j, i <> j /\
         nth_error archived i = Some run1 /\
         nth_error archived j = Some run2) /\
      archived =
        flat_map (fun name => contribution fs (archive_dir self // name))
          (sorted_by String.ltb (map fst es)) /\
      (forall name,
         List.length (contribution fs (archive_dir self // name)) <= 1) /\
      List.length archived <=
        List.length
          (filter (fun name => is_dir fs (archive_dir self // name))
             (map fst es)) /\
      (forall data, load_benchmark_data self fs = inr data ->
         exists extra, data = archived ++ extra) /\
      (no_latest_data self fs = true ->
       load_benchmark_data self fs = inr archived).
Proof.
  intros self fs es name1 name2 first1 first2 rest1 rest2 run1 run2
    timestamp Hdir Hin1 Hin2 Hne Hd1 Hg1 Ho1 Hd2 Hg2 Ho2 _ _ Hclean.
  set (c := fun name => contribution fs (archive_dir self // name)).
  set (names := sorted_by String.ltb (map fst es)).
  assert (Harch : load_archive self fs = inr (flat_map c names)).
  { apply (load_archive_flat_map self fs es Hdir).
    intros name e Hn. apply subdir_clean.
    intros first rest e'. now apply Hclean. }
  exists (flat_map c names). split; [exact Harch | ].
  split; [ | split; [reflexivity | split; [ | split; [ | split]]]].
  - apply flat_map_two_positions with (a := name1) (b := name2).
    + exact (Permutation_in _ (Permutation_sym (sorted_by_perm _ _)) Hin1).
    + exact (Permutation_in _ (Permutation_sym (sorted_by_perm _ _)) Hin2).
    + exact Hne.
    + unfold c, contribution.
      now rewrite (subdir_value fs _ first1 rest1 run1).
    + unfold c, contribution.
      now rewrite (subdir_value fs _ first2 rest2 run2).
  - intros name. pose proof (contribution_length fs (archive_dir self // name)).
    destruct (is_dir fs (archive_dir self // name)); lia.
  - etransitivity.
    + apply flat_map_length_le
        with (keep := fun name => is_dir fs (archive_dir self // name)).
      intros name. apply contribution_length.
    + apply Nat.eq_le_incl, Permutation_length, filter_perm, sorted_by_perm.
  - intros data. unfold load_benchmark_data. rewrite Harch. simpl.
    apply load_latest_extends.
  - intros Hlatest. unfold load_benchmark_data. rewrite Harch. simpl.
    now apply load_latest_no_data.
Qed.

(** ** File-system facts *)

Lemma assoc_set_entry_same (x : string) (c c' : node)
    (es : list (string * node)) :
  assoc x es = Some c -> assoc x (set_entry x c' es) = Some c'.
Proof.
  induction es as [|[k v] es IH]; simpl; [discriminate | ].
  destruct (String.eqb x k) eqn:Hk; simpl.
  - now rewrite String.eqb_refl.
  - now rewrite Hk.
Qed.

Lemma assoc_set_entry_other (x y : string) (c' : node)
    (es : list (string * node)) :
  y <> x -> assoc y (set_entry x c' es) = assoc y es.
Proof.
  intros Hne. induction es as [|[k v] es IH]; simpl; [reflexivity | ].
  destruct (String.eqb_spec x k) as [<- | Hk]; simpl.
  - apply String.eqb_neq in Hne. now rewrite Hne.
  - now rewrite IH.
Qed.

Lemma assoc_app_new_same (x : string) (c : node)
    (es : list (string * node)) :
  assoc x es = None -> assoc x (es ++ [(x, c)]) = Some c.
Proof.
  induction es as [|[k v] es IH]; simpl.
  - now rewrite String.eqb_refl.
  - destruct (String.eqb x k); [discriminate | exact IH].
Qed.

Lemma assoc_app_new_other (x y : string) (c : node)
    (es : list (string * node)) :
  y <> x -> assoc y (es ++ [(x, c)]) = assoc y es.
Proof.
  intros Hne. induction es as [|[k v] es IH]; simpl.
  - apply String.eqb_neq in Hne. now rewrite Hne.
  - now rewrite IH.
Qed.

Lemma is_prefix_nil (p : path) : is_prefix [] p.
Proof. now exists p. Qed.

Lemma is_prefix_cons (x : string) (q p : path) :
  is_prefix (x :: q) (x :: p) <-> is_prefix q p.
Proof.
  split; intros [r Hr]; exists r; simpl in *; congruence.
Qed.

Lemma lookup_empty_dir (q : path) : q <> [] -> lookup (Dir []) q = None.
Proof. destruct q; [congruence | reflexivity]. Qed.

Lemma lookup_app (fs : node) (p q : path) :
  lookup fs (p ++ q) =
    match lookup fs p with
    | Some n => lookup n q
    | None => None
    end.
Proof.
  revert fs. induction p as [|x p IH]; intros fs; simpl; [reflexivity | ].
  destruct fs as [c | es]; [reflexivity | ].
  destruct (assoc x es); [apply IH | reflexivity].
Qed.

Lemma child_exists_parent_dir (fs : node) (d : path) (a : string) :
  exists_ fs (d // a) = true -> is_dir fs d = true.
Proof.
  unfold exists_, is_dir, joinpath. rewrite lookup_app.
  destruct (lookup fs d) as [[c | es] | ]; simpl; congruence.
Qed.

(** Creating a directory changes [lookup] only at the initial segments of
    its path. *)
Lemma mkdir_parents_frame (p : path) :
  forall fs fs', mkdir_parents fs p = inr fs' ->
  forall q, ~ is_prefix q p -> lookup fs' q = lookup fs q.
Proof.
  induction p as [|x rest IH]; intros fs fs' Hmk q Hq.
  - destruct q; [elim Hq; apply is_prefix_nil | ].
    destruct fs; simpl in Hmk; congruence.
  - destruct q as [|y q']; [elim Hq; apply is_prefix_nil | ].
    destruct fs as [c | es]; simpl in Hmk; [discriminate | ].
    destruct (assoc x es) as [child | ] eqn:Hx.
    + destruct (mkdir_parents child rest) as [e | child'] eqn:Hc;
        simpl in Hmk; [discriminate | ].
      injection Hmk as <-. simpl.
      destruct (String.eqb_spec y x) as [-> | Hne].
      * rewrite (assoc_set_entry_same x child child' es Hx), Hx.
        apply (IH child child' Hc). now rewrite <- (is_prefix_cons x).
      * now rewrite assoc_set_entry_other.
    + destruct (mkdir_parents (Dir []) rest) as [e | child'] eqn:Hc;
        simpl in Hmk; [discriminate | ].
      injection Hmk as <-. simpl.
      destruct (String.eqb_spec y x) as [-> | Hne].
      * rewrite (assoc_app_new_same x child' es Hx), Hx.
        rewrite (IH (Dir []) child' Hc)
          by now rewrite <- (is_prefix_cons x).
        apply lookup_empty_dir. intros ->. apply Hq.
        exists rest. reflexivity.
      * now rewrite assoc_app_new_other.
Qed.

Lemma mkdir_frame (p : path) :
  forall fs fs', mkdir fs p = inr fs' ->
  forall q, ~ is_prefix q p -> lookup fs' q = lookup fs q.
Proof.
  induction p as [|x rest IH]; intros fs fs' Hmk q Hq.
  - destruct q; [elim Hq; apply is_prefix_nil | ].
    destruct fs; simpl in Hmk; congruence.
  - destruct q as [|y q']; [elim Hq; apply is_prefix_nil | ].
    destruct fs as [c | es]; simpl in Hmk; [discriminate | ].
    destruct (assoc x es) as [child | ] eqn:Hx.
    + destruct (mkdir child rest) as [e | child'] eqn:Hc;
        simpl in Hmk; [discriminate | ].
      injection Hmk as <-. simpl.
      destruct (String.eqb_spec y x) as [-> | Hne].
      * rewrite (assoc_set_entry_same x child child' es Hx), Hx.
        apply (IH child child' Hc). now rewrite <- (is_prefix_cons x).
      * now rewrite assoc_set_entry_other.
    + destruct rest; [ | discriminate]. injection Hmk as <-. simpl.
      destruct (String.eqb_spec y x) as [-> | Hne].
      * rewrite (assoc_app_new_same x (Dir []) es Hx), Hx.
        apply lookup_empty_dir. intros ->. apply Hq.
        exists []. reflexivity.
      * now rewrite assoc_app_new_other.
Qed.

Lemma mkdir_ok (d : path) (a : string) :
  forall fs,
    is_dir fs d = true ->
    exists_ fs (d // a) = false \/ is_dir fs (d // a) = true ->
    exists fs', mkdir fs (d // a) = inr fs' /\ is_dir fs' (d // a) = true.
Proof.
  unfold exists_, is_dir, joinpath.
  induction d as [|x d IH]; intros fs Hd Ha; simpl in *.
  - destruct fs as [c | es]; [discriminate | ].
    destruct (assoc a es) as [[c | es'] | ] eqn:Hx; simpl.
    + destruct Ha; discriminate.
    + eexists. split; [reflexivity | ]. simpl.
      now rewrite (assoc_set_entry_same a _ _ es Hx).
    + eexists. split; [reflexivity | ]. simpl.
      now rewrite (assoc_app_new_same a _ es Hx).
  - destruct fs as [c | es]; [discriminate | ].
    destruct (assoc x es) as [child | ] eqn:Hx; [ | discriminate].
    destruct (IH child Hd Ha) as (child' & -> & Hc). simpl.
    eexists. split; [reflexivity | ]. simpl.
    now rewrite (assoc_set_entry_same x _ _ es Hx).
Qed.

Lemma mkdir_parents_ok (p : path) :
  forall fs,
    exists_ fs p = false -> blocked fs p = false ->
    exists fs',
      mkdir_parents fs p = inr fs' /\ lookup fs' p = Some (Dir []).
Proof.
  unfold exists_. induction p as [|x rest IH]; intros fs Hex Hbl.
  - discriminate.
  - destruct fs as [c | es]; [discriminate | ]. simpl in *.
    destruct (assoc x es) as [child | ] eqn:Hx.
    + destruct (IH child Hex Hbl) as (child' & -> & Hc). simpl.
      eexists. split; [reflexivity | ]. simpl.
      now rewrite (assoc_set_entry_same x _ _ es Hx).
    + assert (Hnew : exists child',
                mkdir_parents (Dir []) rest = inr child' /\
                lookup child' rest = Some (Dir [])).
      { destruct rest as [|y rest']; [now exists (Dir []) | ].
        now apply IH. }
      destruct Hnew as (child' & -> & Hc). simpl.
      eexists. split; [reflexivity | ]. simpl.
      now rewrite (assoc_app_new_same x _ es Hx).
Qed.

Lemma write_text_lookup (p : path) (text : string) :
  forall fs fs',
    write_text fs p text = inr fs' -> lookup fs' p = Some (File text).
Proof.
  induction p as [|x rest IH]; intros fs fs' Hw.
  - destruct fs; simpl in Hw; [ | discriminate]. now injection Hw as <-.
  - destruct fs as [c | es]; simpl in Hw; [discriminate | ].
    destruct (assoc x es) as [child | ] eqn:Hx.
    + destruct (write_text child rest text) as [e | child'] eqn:Hc;
        simpl in Hw; [discriminate | ].
      injection Hw as <-. simpl.
      rewrite (assoc_set_entry_same x _ _ es Hx). now apply (IH child).
    + destruct rest; [ | discriminate]. injection Hw as <-. simpl.
      now rewrite (assoc_app_new_same x _ es Hx).
Qed.

(** Writing a file changes [lookup] only along its own path. *)
Lemma write_text_frame (p : path) (text : string) :
  forall fs fs',
    write_text fs p text = inr fs' ->
    forall q, ~ is_prefix q p -> ~ is_prefix p q ->
      lookup fs' q = lookup fs q.
Proof.
  induction p as [|x rest IH]; intros fs fs' Hw q Hq Hp.
  - elim Hp. apply is_prefix_nil.
  - destruct q as [|y q']; [elim Hq; apply is_prefix_nil | ].
    destruct fs as [c | es]; simpl in Hw; [discriminate | ].
    destruct (assoc x es) as [child | ] eqn:Hx.
    + destruct (write_text child rest text) as [e | child'] eqn:Hc;
        simpl in Hw; [discriminate | ].
      injection Hw as <-. simpl.
      destruct (String.eqb_spec y x) as [-> | Hne].
      * rewrite (assoc_set_entry_same x child child' es Hx), Hx.
        apply (IH child child' Hc); now rewrite <- (is_prefix_cons x).
      * now rewrite assoc_set_entry_other.
    + destruct rest; [ | discriminate]. injection Hw as <-. simpl.
      destruct (String.eqb_spec y x) as [-> | Hne].
      * elim Hp. exists q'. reflexivity.
      * now rewrite assoc_app_new_other.
Qed.

Lemma write_text_ok (d : path) (a text : string) :
  forall fs,
    is_dir fs d = true -> is_dir fs (d // a) = false ->
    exists fs', write_text fs (d // a) text = inr fs'.
Proof.
  unfold is_dir, joinpath.
  induction d as [|x d IH]; intros fs Hd Ha; simpl in *.
  - destruct fs as [c | es]; [discriminate | ].
    destruct (assoc a es) as [[c | es'] | ]; simpl;
      [eexists; reflexivity | discriminate | eexists; reflexivity].
  - destruct fs as [c | es]; [discriminate | ].
    destruct (assoc x es) as [child | ]; [ | discriminate].
    destruct (IH child Hd Ha) as (child' & ->). simpl.
    eexists. reflexivity.
Qed.

Lemma sibling_not_prefix (d : path) (a b : string) :
  a <> b -> ~ is_prefix (d // a) (d // b).
Proof.
  unfold joinpath. intros Hne [r Hr]. rewrite <- app_assoc in Hr.
  apply app_inv_head in Hr. simpl in Hr. congruence.
Qed.

Lemma below_sibling_not_prefix (d q : path) (a b : string) :
  a <> b -> ~ is_prefix (d // a ++ q) (d // b).
Proof.
  unfold joinpath. intros Hne [r Hr]. rewrite <- !app_assoc in Hr.
  apply app_inv_head in Hr. simpl in Hr. congruence.
Qed.

Lemma longer_not_prefix (d : path) (a : string) :
  ~ is_prefix (d // a) d.
Proof.
  unfold joinpath. intros [r Hr]. apply (f_equal (@List.length _)) in Hr.
  rewrite !length_app in Hr. simpl in Hr. lia.
Qed.

(** ** Running *)

Lemma load_benchmark_data_nothing (self : BenchmarkVisualizer) (fs : node) :
  exists_ fs (archive_dir self) = false \/
    lookup fs (archive_dir self) = Some (Dir []) ->
  no_latest_data self fs = true ->
  load_benchmark_data self fs = inr [].
Proof.
  intros Harch Hlatest. unfold load_benchmark_data, load_archive.
  destruct Harch as [-> | Hempty]; simpl.
  - now apply load_latest_no_data.
  - unfold exists_, iterdir. rewrite Hempty. simpl.
    now apply load_latest_no_data.
Qed.

Lemma readme_text_embeds (trends_content : string) (now : datetime) :
  contains trends_content (readme_text trends_content now).
Proof.
  unfold readme_text.
  apply contains_concat with (line := trends_content).
  - apply in_or_app. right. now left.
  - apply contains_refl.
Qed.

(** C8, as amended: whenever [run] returns without raising, it has
    written [index.html] and [README.md] into the reports directory and
    both embed one and the same trends content; and on a benchmark
    directory with no archive (or an empty one) and no latest data, in
    which [reports] is absent or a directory that holds no directory
    named [index.html] or [README.md], [run] does return, and both files
    embed the no-data sentence. *)
Theorem run_writes_both_reports :
  (forall (self : BenchmarkVisualizer) (now_html now_readme : datetime)
          (fs fs' : node),
     run self now_html now_readme fs = (inr tt, fs') ->
     exists trends_content,
       lookup fs' (reports_dir self // "index.html") =
         Some (File (generate_index_html now_html trends_content)) /\
       lookup fs' (reports_dir self // "README.md") =
         Some (File (readme_text trends_content now_readme)) /\
       contains trends_content
         (generate_index_html now_html trends_content) /\
       contains trends_content (readme_text trends_content now_readme)) /\
  (forall (benchmark_dir : path) (now_html now_readme : datetime)
          (fs : node),
     let self := attributes benchmark_dir in
     is_dir fs benchmark_dir = true ->
     (exists_ fs (reports_dir self) = false \/
      is_dir fs (reports_dir self) = true) ->
     is_dir fs (reports_dir self // "index.html") = false ->
     is_dir fs (reports_dir self // "README.md") = false ->
     (exists_ fs (archive_dir self) = false \/
      lookup fs (archive_dir self) = Some (Dir [])) ->
     no_latest_data self fs = true ->
     exists fs',
       run self now_html now_readme fs = (inr tt, fs') /\
       lookup fs' (reports_dir self // "index.html") =
         Some (File (generate_index_html now_html no_data_message)) /\
       lookup fs' (reports_dir self // "README.md") =
         Some (File (readme_text no_data_message now_readme))).
Proof.
  assert (Hfiles : "index.html"%string <> "README.md"%string)
    by discriminate.
  split.
  - intros self now_html now_readme fs fs'.
    unfold run, bind, writes, reads.
    destruct (mkdir fs (reports_dir self)) as [e | fs1]; [discriminate | ].
    destruct (load_benchmark_data self fs1) as [e | data];
      [discriminate | ].
    destruct (generate_performance_trends self data fs1)
      as [[e | trends_content] fs2]; [discriminate | ].
    cbn zeta.
    destruct (write_text fs2 (reports_dir self // "index.html") _)
      as [e | fs3] eqn:Hhtml; [discriminate | ].
    destruct (write_text fs3 (reports_dir self // "README.md") _)
      as [e | fs4] eqn:Hmd; [discriminate | ].
    intros [= <-]. exists trends_content. repeat split.
    + rewrite (write_text_frame _ _ fs3 fs4 Hmd)
        by (apply sibling_not_prefix; congruence).
      now apply (write_text_lookup _ _ fs2).
    + now apply (write_text_lookup _ _ fs3).
    + apply page_embeds_content.
    + apply readme_text_embeds.
  - intros bd now_html now_readme fs self
      Hbd Hreports Hhtml Hmd Harch Hlatest.
    change (reports_dir self) with (bd // "reports") in *.
    change (archive_dir self) with (bd // "archive") in *.
    change (latest_dir self) with (bd // "latest") in *.
    destruct (mkdir_ok bd "reports" fs Hbd Hreports) as (fs1 & Hmk & Hrd).
    pose proof (mkdir_frame _ fs fs1 Hmk) as Hframe.
    assert (Hload : load_benchmark_data self fs1 = inr []).
    { apply load_benchmark_data_nothing.
      - change (archive_dir self) with (bd // "archive").
        unfold exists_ in *.
        rewrite Hframe by (apply sibling_not_prefix; discriminate).
        exact Harch.
      - unfold no_latest_data, exists_, glob_parsed_json in *.
        change (latest_dir self) with (bd // "latest") in *.
        rewrite (Hframe (bd // "latest"))
          by (apply sibling_not_prefix; discriminate).
        rewrite (Hframe (bd // "latest" // "latest.json")); [exact Hlatest | ].
        apply (below_sibling_not_prefix bd ["latest.json"%string]).
        discriminate. }
    assert (Hhtml1 : is_dir fs1 (bd // "reports" // "index.html") = false).
    { unfold is_dir in *.
      now rewrite Hframe by apply longer_not_prefix. }
    assert (Hmd1 : is_dir fs1 (bd // "reports" // "README.md") = false).
    { unfold is_dir in *.
      now rewrite Hframe by apply longer_not_prefix. }
    destruct (write_text_ok (bd // "reports") "index.html"
                (generate_index_html now_html no_data_message)
                fs1 Hrd Hhtml1) as (fs2 & Hw1).
    pose proof (write_text_lookup _ _ fs1 fs2 Hw1) as Hl1.
    pose proof (write_text_frame _ _ fs1 fs2 Hw1) as Hframe2.
    assert (Hrd2 : is_dir fs2 (bd // "reports") = true).
    { apply (child_exists_parent_dir fs2 _ "index.html").
      unfold exists_. now rewrite Hl1. }
    assert (Hmd2 : is_dir fs2 (bd // "reports" // "README.md") = false).
    { unfold is_dir in *.
      now rewrite Hframe2 by (apply sibling_not_prefix; congruence). }
    destruct (write_text_ok (bd // "reports") "README.md"
                (readme_text no_data_message now_readme)
                fs2 Hrd2 Hmd2) as (fs3 & Hw2).
    exists fs3. repeat split.
    + unfold run, bind, writes, reads.
      change (reports_dir self) with (bd // "reports").
      rewrite Hmk, Hload, trends_of_no_runs.
      cbn zeta. now rewrite Hw1, Hw2.
    + rewrite (write_text_frame _ _ fs2 fs3 Hw2)
        by (apply sibling_not_prefix; congruence).
      exact Hl1.
    + now apply (write_text_lookup _ _ fs2).
Qed.

(** C4, as amended: once the benchmark directory exists and the
    visualizer is constructed, every exception raised during [run] is
    caught: [main] returns, the exit status is zero, and the file system
    is left as [run] left it. *)
Theorem main_swallows_run_exceptions :
  forall (BENCHMARK_DIR : option path) (now_html now_readme : datetime)
         (fs : node) (visualizer : BenchmarkVisualizer),
    let benchmark_dir := environ_get BENCHMARK_DIR ["benchmark-results"] in
    exists_ fs benchmark_dir = true ->
    __init__ benchmark_dir = inr visualizer ->
    fst (main BENCHMARK_DIR now_html now_readme fs) = inr tt /\
    exit_status (fst (main BENCHMARK_DIR now_html now_readme fs)) = 0%Z /\
    snd (main BENCHMARK_DIR now_html now_readme fs) =
      snd (run visualizer now_html now_readme fs).
Proof.
  intros BENCHMARK_DIR now_html now_readme fs visualizer bd Hex Hinit.
  unfold main, bind, reads, lift, try_except_Exception, ret.
  fold bd. rewrite Hex, Hinit. simpl.
  destruct (run visualizer now_html now_readme fs) as [[e | []] fs'];
    repeat split.
Qed.

(** C9, as amended: when the benchmark directory does not exist and no
    regular file stands on its path, [main] creates it, empty, with its
    missing parents, and returns at once: nothing else in the file
    system changes, so no reports directory, page, summary or chart is
    written. *)
Theorem main_creates_missing_directory :
  forall (BENCHMARK_DIR : option path) (now_html now_readme : datetime)
         (fs : node),
    let benchmark_dir := environ_get BENCHMARK_DIR ["benchmark-results"] in
    exists_ fs benchmark_dir = false ->
    blocked fs benchmark_dir = false ->
    exists fs',
      main BENCHMARK_DIR now_html now_readme fs = (inr tt, fs') /\
      lookup fs' benchmark_dir = Some (Dir []) /\
      exists_ fs' (benchmark_dir // "reports") = false /\
      (forall q, ~ is_prefix q benchmark_dir ->
         lookup fs' q = lookup fs q).
Proof.
  intros BENCHMARK_DIR now_html now_readme fs bd Hex Hbl.
  destruct (mkdir_parents_ok bd fs Hex Hbl) as (fs' & Hmk & Hnew).
  exists fs'. repeat split.
  - unfold main, bind, reads, writes. fold bd. rewrite Hex. cbn [negb].
    now rewrite Hmk.
  - exact Hnew.
  - unfold exists_, joinpath. now rewrite lookup_app, Hnew.
  - now apply mkdir_parents_frame.
Qed.

End Script.

(** C7, refuted as stated: the same trends content, rendered at two clock
    readings one second apart, gives two different pages. *)
Lemma generate_index_html_not_pure :
  generate_index_html new_year "" <> generate_index_html one_second_later "".
Proof.
  apply String.eqb_neq. vm_compute. reflexivity.
Qed.

(** ** The theorems at the sample files *)

Local Notation "'sample_run'" :=
  (run sample_json_load false sample_summary unit unit
     sample_flatten sample_to_frame sample_plot).

Local Notation "'sample_main'" :=
  (main sample_json_load false (inr tt) sample_summary unit unit
     sample_flatten sample_to_frame sample_plot).

Lemma latest_duplicate_not_appended_witness :
  exists returned,
    load_benchmark_data sample_json_load (attributes bench)
      fs_duplicate_latest = inr returned /\
    returned = [run_jan; run_feb] /\
    List.length returned = 2.
Proof.
  apply (latest_duplicate_not_appended sample_json_load (attributes bench)
           fs_duplicate_latest [run_jan; run_feb]
           (bench // "latest" // "bench_parsed.json") [] run_jan_rerun
           "2024-01-01T00:00:00").
  - reflexivity.
  - repeat constructor.
  - reflexivity.
  - reflexivity.
  - reflexivity.
  - reflexivity.
  - exists run_jan. split; [now left | reflexivity].
Defined.

Lemma load_archive_in_sorted_order_witness :
  load_benchmark_data sample_json_load (attributes bench) fs_archive_only =
    inr [run_jan; run_feb] /\
  List.length [run_jan; run_feb] = 2 /\
  Sorted (fun a b => String.leb a b = true) ["2024-01"; "2024-02"]%string /\
  Permutation ["2024-01"; "2024-02"]%string ["2024-02"; "2024-01"]%string.
Proof.
  apply (load_archive_in_sorted_order sample_json_load (attributes bench)
           fs_archive_only
           [("2024-02", Dir [("bench_parsed.json", File "feb")]);
            ("2024-01", Dir [("bench_parsed.json", File "jan")]);
            ("notes.txt", File "kept by hand")]
           sample_run_of).
  - reflexivity.
  - intros name [<- | [<- | [<- | []]]] Hd.
    + exists (bench // "archive" // "2024-02" // "bench_parsed.json").
      split; reflexivity.
    + exists (bench // "archive" // "2024-01" // "bench_parsed.json").
      split; reflexivity.
    + vm_compute in Hd. discriminate.
  - reflexivity.
Defined.

Lemma malformed_subdir_skipped_witness :
  load_archive sample_json_load (attributes bench) fs_one_malformed =
    inr [run_jan; run_feb] /\
  load_benchmark_data sample_json_load (attributes bench) fs_one_malformed =
    inr [run_jan; run_feb].
Proof.
  apply (malformed_subdir_skipped sample_json_load (attributes bench)
           fs_one_malformed
           [("2024-02", Dir [("bench_parsed.json", File "feb")]);
            ("2024-01b", Dir [("bench_parsed.json", File "{{{")]);
            ("2024-01", Dir [("bench_parsed.json", File "jan")])]
           "2024-01b" sample_run_of).
  - reflexivity.
  - simpl. tauto.
  - reflexivity.
  - right.
    exists (bench // "archive" // "2024-01b" // "bench_parsed.json"), [],
      JSONDecodeError.
    repeat split. now left.
  - intros name [<- | [<- | [<- | []]]] Hne Hd.
    + exists (bench // "archive" // "2024-02" // "bench_parsed.json"), [].
      split; reflexivity.
    + now elim Hne.
    + exists (bench // "archive" // "2024-01" // "bench_parsed.json"), [].
      split; reflexivity.
Defined.

Lemma archive_keeps_equal_timestamps_witness :
  exists archived,
    load_archive sample_json_load (attributes bench) fs_same_timestamp =
      inr archived /\
    (exists i j, i <> j /\
       nth_error archived i = Some run_jan /\
       nth_error archived j = Some run_jan_rerun) /\
    archived =
      flat_map
        (fun name =>
           contribution sample_json_load fs_same_timestamp
             (bench // "archive" // name))
        ["first"; "second"]%string /\
    (forall name,
       List.length
         (contribution sample_json_load fs_same_timestamp
            (bench // "archive" // name)) <= 1) /\
    List.length archived <= 2 /\
    (forall data,
       load_benchmark_data sample_json_load (attributes bench)
         fs_same_timestamp = inr data ->
       exists extra, data = archived ++ extra) /\
    (no_latest_data (attributes bench) fs_same_timestamp = true ->
     load_benchmark_data sample_json_load (attributes bench)
       fs_same_timestamp = inr archived).
Proof.
  apply (archive_keeps_equal_timestamps sample_json_load (attributes bench)
           fs_same_timestamp
           [("first", Dir [("a_parsed.json", File "jan");
                           ("b_parsed.json", File "feb")]);
            ("second", Dir [("c_parsed.json", File "jan-rerun")])]
           "first" "second"
           (bench // "archive" // "first" // "a_parsed.json")
           (bench // "archive" // "second" // "c_parsed.json")
           [bench // "archive" // "first" // "b_parsed.json"] []
           run_jan run_jan_rerun (PStr "2024-01-01T00:00:00")).
  - reflexivity.
  - simpl. tauto.
  - simpl. tauto.
  - discriminate.
  - reflexivity.
  - reflexivity.
  - reflexivity.
  - reflexivity.
  - reflexivity.
  - reflexivity.
  - reflexivity.
  - reflexivity.
  - intros name first rest e [<- | [<- | []]] Hglob Hopen;
      vm_compute in Hglob; injection Hglob as <- <-;
      vm_compute in Hopen; discriminate.
Defined.

Lemma main_swallows_run_exceptions_witness :
  fst (sample_main None new_year one_second_later fs_reports_is_file) =
    inr tt /\
  exit_status
    (fst (sample_main None new_year one_second_later fs_reports_is_file)) =
    0%Z /\
  snd (sample_main None new_year one_second_later fs_reports_is_file) =
    snd (sample_run (attributes bench) new_year one_second_later
           fs_reports_is_file).
Proof.
  apply (main_swallows_run_exceptions sample_json_load false (inr tt)
           sample_summary unit unit sample_flatten sample_to_frame
           sample_plot None new_year one_second_later fs_reports_is_file
           (attributes bench)).
  - reflexivity.
  - reflexivity.
Defined.

(** C4, refuted as stated: with [BENCHMARK_DIR] set to [results/bench] where
    [results] is a regular file, the directory does not exist, creating it
    raises before [run] is entered, and the exit status is one. *)
Lemma main_exits_nonzero :
  exists_ fs_blocked ["results"; "bench"]%string = false /\
  exit_status
    (fst (sample_main (Some ["results"; "bench"]%string)
            new_year one_second_later fs_blocked)) = 1%Z.
Proof. split; reflexivity. Qed.

Lemma run_writes_both_reports_witness :
  exists fs',
    sample_run (attributes bench) new_year one_second_later fs_empty_bench =
      (inr tt, fs') /\
    lookup fs' (bench // "reports" // "index.html") =
      Some (File (generate_index_html new_year no_data_message)) /\
    lookup fs' (bench // "reports" // "README.md") =
      Some (File (readme_text no_data_message one_second_later)).
Proof.
  apply (proj2 (run_writes_both_reports sample_json_load false sample_summary
                  unit unit sample_flatten sample_to_frame sample_plot)
           bench new_year one_second_later fs_empty_bench).
  - reflexivity.
  - now left.
  - reflexivity.
  - reflexivity.
  - now left.
  - reflexivity.
Defined.

(** C8, refuted as stated: on an existing benchmark directory in which
    [reports] is a regular file, [run] raises while creating the reports
    directory and writes neither file. *)
Lemma run_writes_nothing :
  is_dir fs_reports_is_file bench = true /\
  fst (sample_run (attributes bench) new_year one_second_later
         fs_reports_is_file) = inl FileExistsError /\
  exists_
    (snd (sample_run (attributes bench) new_year one_second_later
            fs_reports_is_file))
    (bench // "reports" // "index.html") = false /\
  exists_
    (snd (sample_run (attributes bench) new_year one_second_later
            fs_reports_is_file))
    (bench // "reports" // "README.md") = false.
Proof. repeat split; reflexivity. Qed.

Lemma main_creates_missing_directory_witness :
  exists fs',
    sample_main (Some ["out"; "bench"]%string) new_year one_second_later
      fs_no_bench = (inr tt, fs') /\
    lookup fs' ["out"; "bench"]%string = Some (Dir []) /\
    exists_ fs' (["out"; "bench"]%string // "reports") = false /\
    (forall q, ~ is_prefix q ["out"; "bench"]%string ->
       lookup fs' q = lookup fs_no_bench q).
Proof.
  apply (main_creates_missing_directory sample_json_load false (inr tt)
           sample_summary unit unit sample_flatten sample_to_frame
           sample_plot (Some ["out"; "bench"]%string) new_year
           one_second_later fs_no_bench).
  - reflexivity.
  - reflexivity.
Defined.

(** C9, refuted as stated: with [BENCHMARK_DIR] set to [results/bench] where
    [results] is a regular file, the benchmark directory does not exist,
    yet [main] does not create it: creating it raises, and the file system
    is left as it was. *)
Lemma main_cannot_create_directory :
  exists_ fs_blocked ["results"; "bench"]%string = false /\
  sample_main (Some ["results"; "bench"]%string) new_year one_second_later
    fs_blocked = (inl NotADirectoryError, fs_blocked) /\
  is_dir fs_blocked ["results"; "bench"]%string = false.
Proof. repeat split; reflexivity. Qed.

(** ** The embedding at work *)

Example sorted_is_by_code_point :
  sorted [["a"; "b"]; ["a"; "B"]; ["a"; "10"]; ["a"; "9"]]%string =
    [["a"; "10"]; ["a"; "9"]; ["a"; "B"]; ["a"; "b"]]%string.
Proof. reflexivity. Qed.

Example pattern_matches :
  map matches_parsed_json
    ["bench_parsed.json"; "_parsed.json"; "latest.json"; "x_parsed.json.bak"]
    %string = [true; true; false; false].
Proof. reflexivity. Qed.

Example equal_numbers :
  py_eq (PInt 1) (PFloat 1) = true /\
  py_eq (PBool true) (PInt 1) = true /\
  py_eq (PStr "1") (PInt 1) = false /\
  py_eq PNone PNone = true.
Proof. repeat split. Qed.

Example strftime_pads :
  strftime {| year := 2024; month := 3; day := 7;
              hour := 0; minute := 5; second := 59;
              microsecond := 123456 |} = "2024-03-07 00:05:59"%string.
Proof. reflexivity. Qed.

(** A distinct latest run is appended after the archived ones. *)
Example latest_run_appended :
  load_benchmark_data sample_json_load (attributes bench)
    (Dir [("benchmark-results",
           Dir [("archive",
                 Dir [("2024-01",
                       Dir [("bench_parsed.json", File "jan")])]);
                ("latest", Dir [("latest.json", File "raw");
                                ("bench_parsed.json", File "feb")])])]) =
    inr [run_jan; run_feb].
Proof. reflexivity. Qed.

(** A decoded value that is not an object makes the merge raise. *)
Example list_in_archive_raises :
  load_latest (fun _ => inr (PList [])) (attributes bench)
    fs_duplicate_latest [PList []] = inl AttributeError.
Proof. reflexivity. Qed.

(** With the plotting stack imported, [run] on two archived runs writes the
    four charts, the page and the summary. *)
Example run_with_charts :
  let after :=
    run sample_json_load true sample_summary unit unit sample_flatten
      sample_to_frame sample_plot (attributes bench) new_year
      one_second_later fs_archive_only in
  fst after = inr tt /\
  map (fun name => exists_ (snd after) (bench // "reports" // name))
    ["performance_trends.png"; "group_performance.png";
     "recent_changes.png"; "performance_distribution.png";
     "index.html"; "README.md"]%string =
    [true; true; true; true; true; true].
Proof. vm_compute. split; reflexivity. Qed.

(** * Further properties *)

(** ** Merging the latest run *)

Section Merging.

Variable json_load : string -> result pyval.

Lemma load_latest_present (self : BenchmarkVisualizer) (fs : node)
    (data : list pyval) (first : path) (rest : list path)
    (latest_data : pyval) :
  exists_ fs (latest_dir self // "latest.json") = true ->
  glob_parsed_json fs (latest_dir self) = first :: rest ->
  open_json_load json_load fs first = inr latest_data ->
  load_latest json_load self fs data =
    try_except
      (present <~ any_same_timestamp latest_data data ;;
       inr (if present then data else data ++ [latest_data]))
      data.
Proof.
  intros Hmark Hglob Hopen. unfold load_latest.
  now rewrite Hmark, Hglob, Hopen.
Qed.

Lemma any_same_timestamp_equal (latest_data : pyval) (data : list pyval)
    (t : pyval) :
  Forall (fun d => is_dict d = true) data ->
  py_get latest_data "timestamp" = inr t ->
  (exists d a, In d data /\ py_get d "timestamp" = inr a /\
     py_eq a t = true) ->
  any_same_timestamp latest_data data = inr true.
Proof.
  intros Hdict Hlatest. induction Hdict as [|d0 data Hd0 _ IH].
  - intros (d & a & [] & _).
  - intros (d & a & Hin & Hd & Heq). simpl. rewrite Hlatest.
    destruct (py_get d0 "timestamp") as [e | a0] eqn:Hd0';
      [destruct d0; discriminate | ].
    simpl. destruct Hin as [<- | Hin].
    + rewrite Hd0' in Hd. injection Hd as ->. now rewrite Heq.
    + destruct (py_eq a0 t); [reflexivity | ].
      apply IH. now exists d, a.
Qed.

Lemma any_same_timestamp_fresh (latest_data : pyval) (data : list pyval)
    (t : pyval) :
  Forall (fun d => is_dict d = true) data ->
  py_get latest_data "timestamp" = inr t ->
  (forall d a, In d data -> py_get d "timestamp" = inr a ->
     py_eq a t = false) ->
  any_same_timestamp latest_data data = inr false.
Proof.
  intros Hdict Hlatest. induction Hdict as [|d0 data Hd0 _ IH]; intros Hne.
  - reflexivity.
  - simpl. rewrite Hlatest.
    destruct (py_get d0 "timestamp") as [e | a0] eqn:Hd0';
      [destruct d0; discriminate | ].
    simpl. rewrite (Hne d0 a0 (or_introl eq_refl) Hd0').
    apply IH. intros d a Hin. apply Hne. now right.
Qed.

(** X1: a latest run whose timestamp equals (Python [==]) that of no
    archived run is appended, after all the archived runs. *)
Theorem fresh_latest_appended_last :
  forall (self : BenchmarkVisualizer) (fs : node) (data : list pyval)
         (first : path) (rest : list path) (latest_data t : pyval),
    load_archive json_load self fs = inr data ->
    Forall (fun d => is_dict d = true) data ->
    exists_ fs (latest_dir self // "latest.json") = true ->
    glob_parsed_json fs (latest_dir self) = first :: rest ->
    open_json_load json_load fs first = inr latest_data ->
    py_get latest_data "timestamp" = inr t ->
    (forall d a, In d data -> py_get d "timestamp" = inr a ->
       py_eq a t = false) ->
    load_benchmark_data json_load self fs = inr (data ++ [latest_data]).
Proof.
  intros self fs data first rest latest_data t
    Harch Hdict Hmark Hglob Hopen Hts Hfresh.
  unfold load_benchmark_data. rewrite Harch. simpl.
  rewrite (load_latest_present self fs data first rest latest_data)
    by assumption.
  now rewrite (any_same_timestamp_fresh latest_data data t).
Qed.

(** X2: the timestamps are compared with Python's [==] on whatever the
    field holds, an absent field counting as [None]: a latest run is
    dropped as soon as one archived run's timestamp compares equal to its
    own, so a latest run without a timestamp is dropped when an archived
    run has none either. *)
Theorem equal_timestamp_dropped :
  forall (self : BenchmarkVisualizer) (fs : node) (data : list pyval)
         (first : path) (rest : list path) (latest_data t : pyval),
    load_archive json_load self fs = inr data ->
    Forall (fun d => is_dict d = true) data ->
    exists_ fs (latest_dir self // "latest.json") = true ->
    glob_parsed_json fs (latest_dir self) = first :: rest ->
    open_json_load json_load fs first = inr latest_data ->
    py_get latest_data "timestamp" = inr t ->
    (exists d a, In d data /\ py_get d "timestamp" = inr a /\
       py_eq a t = true) ->
    load_benchmark_data json_load self fs = inr data.
Proof.
  intros self fs data first rest latest_data t
    Harch Hdict Hmark Hglob Hopen Hts Hdup.
  unfold load_benchmark_data. rewrite Harch. simpl.
  rewrite (load_latest_present self fs data first rest latest_data)
    by assumption.
  now rewrite (any_same_timestamp_equal latest_data data t).
Qed.

(** X3: when the archive yields no run, the value decoded from the latest
    file is returned as the only element without being inspected, whether
    or not it is a JSON object. *)
Theorem latest_alone_not_inspected :
  forall (self : BenchmarkVisualizer) (fs : node)
         (first : path) (rest : list path) (latest_data : pyval),
    load_archive json_load self fs = inr [] ->
    exists_ fs (latest_dir self // "latest.json") = true ->
    glob_parsed_json fs (latest_dir self) = first :: rest ->
    open_json_load json_load fs first = inr latest_data ->
    load_benchmark_data json_load self fs = inr [latest_data].
Proof.
  intros self fs first rest latest_data Harch Hmark Hglob Hopen.
  unfold load_benchmark_data. rewrite Harch. simpl.
  now rewrite (load_latest_present self fs [] first rest latest_data).
Qed.

(** X4: when the first archived value is not a JSON object and a latest run
    is decoded, the comparison of timestamps raises [AttributeError], which
    the [except] clause does not list: [load_benchmark_data] raises it and
    returns nothing. *)
Theorem non_object_run_raises :
  forall (self : BenchmarkVisualizer) (fs : node) (d0 : pyval)
         (data : list pyval) (first : path) (rest : list path)
         (latest_data : pyval),
    load_archive json_load self fs = inr (d0 :: data) ->
    is_dict d0 = false ->
    exists_ fs (latest_dir self // "latest.json") = true ->
    glob_parsed_json fs (latest_dir self) = first :: rest ->
    open_json_load json_load fs first = inr latest_data ->
    load_benchmark_data json_load self fs = inl AttributeError.
Proof.
  intros self fs d0 data first rest latest_data
    Harch Hd0 Hmark Hglob Hopen.
  unfold load_benchmark_data. rewrite Harch. simpl.
  rewrite (load_latest_present self fs _ first rest latest_data)
    by assumption.
  destruct d0; try discriminate; reflexivity.
Qed.

Lemma subdir_error_unhandled (fs : node) (data : list pyval) (p : path)
    (e : exn) :
  load_archive_subdir json_load fs data p = inl e -> handled e = false.
Proof.
  unfold load_archive_subdir.
  destruct (is_dir fs p); simpl; [ | discriminate].
  destruct (glob_parsed_json fs p) as [|first rest]; [discriminate | ].
  destruct (open_json_load json_load fs first) as [e' | v]; simpl;
    [ | discriminate].
  destruct (handled e') eqn:He; [discriminate | ].
  now intros [= <-].
Qed.

Lemma for_each_aborts (fs : node) (l : list path) :
  (exists p e, In p l /\ load_archive_subdir json_load fs [] p = inl e) ->
  forall acc,
    exists e',
      for_each (load_archive_subdir json_load fs) acc l = inl e' /\
      handled e' = false.
Proof.
  induction l as [|x l IH]; intros (p & e & Hin & Hp) acc.
  - destruct Hin.
  - simpl.
    destruct (load_archive_subdir json_load fs acc x) as [e' | acc'] eqn:Hx.
    + exists e'. split; [reflexivity | ].
      now apply (subdir_error_unhandled fs acc x).
    + simpl. destruct Hin as [-> | Hin].
      * rewrite load_archive_subdir_appends, Hp in Hx. discriminate.
      * apply IH. now exists p, e.
Qed.

(** X5: only [JSONDecodeError] and [FileNotFoundError] are skipped.  When
    the first matching entry of some subdirectory raises anything else on
    being opened and decoded (a directory named like a result file, text
    that is not valid UTF-8), the whole load raises an exception the
    [except] clause does not list, and no run is returned. *)
Theorem other_error_aborts_load :
  forall (self : BenchmarkVisualizer) (fs : node)
         (es : list (string * node)) (name : string)
         (first : path) (rest : list path) (e : exn),
    lookup fs (archive_dir self) = Some (Dir es) ->
    In name (map fst es) ->
    is_dir fs (archive_dir self // name) = true ->
    glob_parsed_json fs (archive_dir self // name) = first :: rest ->
    open_json_load json_load fs first = inl e ->
    handled e = false ->
    exists e',
      load_benchmark_data json_load self fs = inl e' /\
      handled e' = false.
Proof.
  intros self fs es name first rest e Hdir Hin Hd Hglob Hopen He.
  assert (Hsub : load_archive_subdir json_load fs []
                   (archive_dir self // name) = inl e).
  { unfold load_archive_subdir. rewrite Hd, Hglob, Hopen. simpl.
    now rewrite He. }
  destruct (for_each_aborts fs
              (sorted (map (joinpath (archive_dir self)) (map fst es))))
    with (acc := @nil pyval) as (e' & Hfor & He').
  { exists (archive_dir self // name), e. split; [ | exact Hsub].
    rewrite sorted_children. apply in_map.
    exact (Permutation_in _ (Permutation_sym (sorted_by_perm _ _)) Hin). }
  exists e'. split; [ | exact He'].
  unfold load_benchmark_data, load_archive, exists_, iterdir.
  rewrite Hdir. simpl. rewrite <- (map_map fst (joinpath (archive_dir self))).
  now rewrite Hfor.
Qed.

(** X6: [exists()] is true of a regular file as well: when [archive] is a
    regular file, listing it raises [NotADirectoryError] and
    [load_benchmark_data] raises it in turn. *)
Theorem archive_regular_file_raises :
  forall (self : BenchmarkVisualizer) (fs : node) (content : string),
    lookup fs (archive_dir self) = Some (File content) ->
    load_benchmark_data json_load self fs = inl NotADirectoryError.
Proof.
  intros self fs content Hfile.
  unfold load_benchmark_data, load_archive, exists_, iterdir.
  now rewrite Hfile.
Qed.

End Merging.

(** ** Well-formed inputs *)

Section WellFormed.

Variable json_load : string -> result pyval.

Lemma any_same_timestamp_total (latest_data : pyval) (data : list pyval) :
  Forall (fun d => is_dict d = true) data ->
  is_dict latest_data = true ->
  exists present, any_same_timestamp latest_data data = inr present.
Proof.
  intros Hdict Hlatest. induction Hdict as [|d0 data Hd0 _ [b IH]].
  - now exists false.
  - simpl. destruct d0; try discriminate.
    destruct latest_data; try discriminate. simpl.
    destruct (py_eq _ _); [now exists true | now exists b].
Qed.

Lemma for_each_invariant {A B : Type} (P : B -> Prop)
    (body : B -> A -> result B) (l : list A) :
  (forall acc x, In x l -> P acc ->
     exists acc', body acc x = inr acc' /\ P acc') ->
  forall acc, P acc ->
    exists out, for_each body acc l = inr out /\ P out.
Proof.
  induction l as [|x l IH]; intros Hbody acc Hacc; simpl.
  - now exists acc.
  - destruct (Hbody acc x (or_introl eq_refl) Hacc) as (acc' & -> & Hacc').
    simpl. apply IH; [ | exact Hacc'].
    intros a y Hy. apply Hbody. now right.
Qed.

(** X7: when [archive] is absent or a directory and every first matching
    entry that is read (one per archive subdirectory, one in [latest/])
    decodes to a JSON object or raises one of the two listed exceptions,
    [load_benchmark_data] raises nothing and every element it returns is a
    JSON object. *)
Theorem load_returns_objects :
  forall (self : BenchmarkVisualizer) (fs : node),
    match lookup fs (archive_dir self) with
    | Some (Dir es) =>
        forall name first rest,
          In name (map fst es) ->
          glob_parsed_json fs (archive_dir self // name) = first :: rest ->
          match open_json_load json_load fs first with
          | inr v => is_dict v = true
          | inl e => handled e = true
          end
    | Some (File _) => False
    | None => True
    end ->
    (forall first rest,
       glob_parsed_json fs (latest_dir self) = first :: rest ->
       match open_json_load json_load fs first with
       | inr v => is_dict v = true
       | inl e => handled e = true
       end) ->
    exists data,
      load_benchmark_data json_load self fs = inr data /\
      Forall (fun d => is_dict d = true) data.
Proof.
  intros self fs Harch Hlatest.
  assert (Ha : exists data,
             load_archive json_load self fs = inr data /\
             Forall (fun d => is_dict d = true) data).
  { unfold load_archive, exists_, iterdir.
    destruct (lookup fs (archive_dir self)) as [[c | es] | ];
      [destruct Harch | | now exists []]. simpl.
    rewrite <- (map_map fst (joinpath (archive_dir self))), sorted_children.
    apply for_each_invariant; [ | constructor].
    intros acc p Hp Hacc. apply in_map_iff in Hp.
    destruct Hp as (name & <- & Hn).
    apply (Permutation_in _ (sorted_by_perm String.ltb _)) in Hn.
    unfold load_archive_subdir.
    destruct (is_dir fs (archive_dir self // name)); simpl;
      [ | now exists acc].
    destruct (glob_parsed_json fs (archive_dir self // name))
      as [|first rest] eqn:Hglob; [now exists acc | ].
    specialize (Harch name first rest Hn Hglob).
    destruct (open_json_load json_load fs first) as [e | v]; simpl.
    - rewrite Harch. now exists acc.
    - exists (acc ++ [v]). split; [reflexivity | ].
      apply Forall_app. split; [exact Hacc | now constructor]. }
  destruct Ha as (data & Hdata & Hdict).
  unfold load_benchmark_data. rewrite Hdata. simpl. unfold load_latest.
  destruct (exists_ fs (latest_dir self // "latest.json"));
    [ | now exists data].
  destruct (glob_parsed_json fs (latest_dir self)) as [|first rest] eqn:Hglob;
    [now exists data | ].
  specialize (Hlatest first rest eq_refl).
  destruct (open_json_load json_load fs first) as [e | v]; simpl.
  - rewrite Hlatest. now exists data.
  - destruct (any_same_timestamp_total v data Hdict Hlatest) as [b ->].
    simpl. destruct b; [now exists data | ].
    exists (data ++ [v]). split; [reflexivity | ].
    apply Forall_app. split; [exact Hdict | now constructor].
Qed.

End WellFormed.

(** ** What is written, and where *)

Section Effects.

Variable json_load : string -> result pyval.
Variable VISUALIZATION_AVAILABLE : bool.
Variable style_setup : result unit.
Variable summary_of : list pyval -> result string.
Variables row frame : Type.
Variable flatten : list pyval -> result (list row).
Variable to_frame : list row -> result frame.
Variable plot : chart -> frame -> result string.

Local Notation "'trends_'" :=
  (generate_performance_trends VISUALIZATION_AVAILABLE summary_of row frame
     flatten to_frame plot).
Local Notation "'run_'" :=
  (run json_load VISUALIZATION_AVAILABLE summary_of row frame flatten
     to_frame plot).
Local Notation "'main_'" :=
  (main json_load VISUALIZATION_AVAILABLE style_setup summary_of row frame
     flatten to_frame plot).

Lemma is_prefix_snoc (q p : path) (a : string) :
  is_prefix q (p // a) -> is_prefix q p \/ q = p // a.
Proof.
  unfold joinpath. intros [r Hr].
  induction r as [|b r' _] using rev_ind.
  - right. now rewrite app_nil_r in Hr.
  - left. exists r'.
    rewrite app_assoc in Hr. now apply app_inj_tail in Hr.
Qed.

Lemma is_prefix_trans (p q r : path) :
  is_prefix p q -> is_prefix q r -> is_prefix p r.
Proof.
  intros [a ->] [b ->]. exists (a ++ b). now rewrite app_assoc.
Qed.

Lemma is_prefix_joinpath (p : path) (a : string) : is_prefix p (p // a).
Proof. now exists [a]. Qed.

(** A path that neither leads to [d] nor lies under it is unrelated to
    every entry of [d]. *)
Lemma apart_from_entry (d q : path) (a : string) :
  ~ is_prefix q d -> ~ is_prefix d q ->
  ~ is_prefix q (d // a) /\ ~ is_prefix (d // a) q.
Proof.
  intros Hqd Hdq. split.
  - intros H. apply is_prefix_snoc in H. destruct H as [H | ->].
    + now apply Hqd.
    + apply Hdq, is_prefix_joinpath.
  - intros H. apply Hdq.
    exact (is_prefix_trans _ _ _ (is_prefix_joinpath d a) H).
Qed.

Lemma bind_frame {A B : Type} (q : path) (m : M A) (k : A -> M B) :
  (forall fs, lookup (snd (m fs)) q = lookup fs q) ->
  (forall a fs, lookup (snd (k a fs)) q = lookup fs q) ->
  forall fs, lookup (snd (bind m k fs)) q = lookup fs q.
Proof.
  intros Hm Hk fs. unfold bind. specialize (Hm fs).
  destruct (m fs) as [[e | a] fs1]; simpl in *; [exact Hm | ].
  now rewrite Hk.
Qed.

Lemma write_entry_frame (d q : path) (a text : string) :
  ~ is_prefix q d -> ~ is_prefix d q ->
  forall fs,
    lookup (snd (writes (fun fs => write_text fs (d // a) text) fs)) q =
      lookup fs q.
Proof.
  intros Hqd Hdq fs. unfold writes.
  destruct (write_text fs (d // a) text) as [e | fs'] eqn:Hw;
    [reflexivity | ].
  destruct (apart_from_entry d q a Hqd Hdq) as [H1 H2].
  exact (write_text_frame _ _ fs fs' Hw q H1 H2).
Qed.

Lemma generate_chart_frame (self : BenchmarkVisualizer) (c : chart)
    (df : frame) (q : path) :
  ~ is_prefix q (reports_dir self) -> ~ is_prefix (reports_dir self) q ->
  forall fs,
    lookup (snd (generate_chart frame plot self c df fs)) q =
      lookup fs q.
Proof.
  intros Hq1 Hq2. unfold generate_chart.
  apply bind_frame; [reflexivity | ]. intros image.
  apply bind_frame; [now apply write_entry_frame | reflexivity].
Qed.

Lemma trends_frame (self : BenchmarkVisualizer) (data : list pyval)
    (q : path) :
  ~ is_prefix q (reports_dir self) -> ~ is_prefix (reports_dir self) q ->
  forall fs, lookup (snd (trends_ self data fs)) q = lookup fs q.
Proof.
  intros Hq1 Hq2. unfold generate_performance_trends.
  destruct (negb VISUALIZATION_AVAILABLE || _); [reflexivity | ].
  apply bind_frame; [reflexivity | ]. intros [|r rows]; [reflexivity | ].
  apply bind_frame; [reflexivity | ]. intros df.
  unfold _generate_overall_trends_chart, _generate_group_performance_chart,
    _generate_recent_changes_chart, _generate_distribution_chart.
  repeat (apply bind_frame; [now apply generate_chart_frame | intros ?]).
  reflexivity.
Qed.

Lemma run_frame (self : BenchmarkVisualizer) (now_html now_readme : datetime)
    (q : path) :
  ~ is_prefix q (reports_dir self) -> ~ is_prefix (reports_dir self) q ->
  forall fs, lookup (snd (run_ self now_html now_readme fs)) q = lookup fs q.
Proof.
  intros Hq1 Hq2. unfold run.
  apply bind_frame.
  { intros fs. unfold writes.
    destruct (mkdir fs (reports_dir self)) as [e | fs'] eqn:Hmk;
      [reflexivity | ].
    exact (mkdir_frame _ fs fs' Hmk q Hq1). }
  intros _. apply bind_frame; [reflexivity | ]. intros data.
  apply bind_frame; [now apply trends_frame | ]. intros trends_content.
  cbn zeta. apply bind_frame; [now apply write_entry_frame | ].
  intros _. now apply write_entry_frame.
Qed.

(** X8: whether it returns or raises, [run] changes nothing outside the
    reports directory: every path that neither leads to that directory nor
    lies under it names after the call what it named before. *)
Theorem run_changes_only_reports :
  forall (self : BenchmarkVisualizer) (now_html now_readme : datetime)
         (fs : node) (q : path),
    ~ is_prefix q (reports_dir self) ->
    ~ is_prefix (reports_dir self) q ->
    lookup (snd (run_ self now_html now_readme fs)) q = lookup fs q.
Proof.
  intros self now_html now_readme fs q Hq1 Hq2. now apply run_frame.
Qed.

(** X9: whether it returns or raises, [main] changes nothing outside the
    benchmark directory: every path that neither leads to that directory
    nor lies under it names after the call what it named before. *)
Theorem main_changes_only_benchmark_dir :
  forall (BENCHMARK_DIR : option path) (now_html now_readme : datetime)
         (fs : node) (q : path),
    let benchmark_dir := environ_get BENCHMARK_DIR ["benchmark-results"] in
    ~ is_prefix q benchmark_dir ->
    ~ is_prefix benchmark_dir q ->
    lookup (snd (main_ BENCHMARK_DIR now_html now_readme fs)) q =
      lookup fs q.
Proof.
  intros BENCHMARK_DIR now_html now_readme fs q bd Hq1 Hq2.
  unfold main, bind, reads, lift. fold bd.
  destruct (exists_ fs bd); cbn [negb fst snd].
  - unfold __init__.
    destruct (if VISUALIZATION_AVAILABLE then style_setup else inr tt)
      as [e | []]; simpl; [reflexivity | ].
    destruct (apart_from_entry bd q "reports" Hq1 Hq2) as [H1 H2].
    pose proof (run_frame (attributes bd) now_html now_readme q H1 H2 fs)
      as Hrun.
    unfold try_except_Exception.
    destruct (run_ (attributes bd) now_html now_readme fs)
      as [[e | []] fs']; exact Hrun.
  - unfold writes.
    destruct (mkdir_parents fs bd) as [e | fs'] eqn:Hmk; [reflexivity | ].
    exact (mkdir_parents_frame _ fs fs' Hmk q Hq1).
Qed.

Lemma glob_children (fs : node) (p q : path) :
  In q (glob_parsed_json fs p) -> exists name, q = p // name.
Proof.
  unfold glob_parsed_json.
  destruct (lookup fs p) as [[c | es] | ]; try (intros []).
  intros H. apply in_map_iff in H. destruct H as (name & <- & _).
  now exists name.
Qed.

Lemma for_each_ext {A B : Type} (f g : B -> A -> result B) (l : list A) :
  (forall acc x, In x l -> f acc x = g acc x) ->
  forall acc, for_each f acc l = for_each g acc l.
Proof.
  induction l as [|x l IH]; intros H acc; simpl; [reflexivity | ].
  rewrite (H acc x (or_introl eq_refl)).
  destruct (g acc x) as [e | acc']; simpl; [reflexivity | ].
  apply IH. intros a y Hy. apply H. now right.
Qed.

(** What is read from a directory depends on what lies at and under it. *)
Lemma open_json_load_ext (fs fs' : node) (p : path) :
  lookup fs' p = lookup fs p ->
  open_json_load json_load fs' p = open_json_load json_load fs p.
Proof. unfold open_json_load. now intros ->. Qed.

Lemma load_archive_subdir_ext (fs fs' : node) (data : list pyval)
    (p : path) :
  (forall q, lookup fs' (p ++ q) = lookup fs (p ++ q)) ->
  load_archive_subdir json_load fs' data p =
    load_archive_subdir json_load fs data p.
Proof.
  intros H. assert (Hp : lookup fs' p = lookup fs p)
    by (rewrite <- (app_nil_r p); apply H).
  unfold load_archive_subdir, is_dir. rewrite Hp.
  assert (Hglob : glob_parsed_json fs' p = glob_parsed_json fs p)
    by (unfold glob_parsed_json; now rewrite Hp).
  rewrite Hglob.
  destruct (glob_parsed_json fs p) as [|first rest] eqn:Hg; [reflexivity | ].
  destruct (glob_children fs p first) as [name ->];
    [rewrite Hg; now left | ].
  now rewrite (open_json_load_ext fs fs' (p // name)) by apply H.
Qed.

Lemma load_benchmark_data_ext (self : BenchmarkVisualizer) (fs fs' : node) :
  (forall q, lookup fs' (archive_dir self ++ q) =
             lookup fs (archive_dir self ++ q)) ->
  (forall q, lookup fs' (latest_dir self ++ q) =
             lookup fs (latest_dir self ++ q)) ->
  load_benchmark_data json_load self fs' =
    load_benchmark_data json_load self fs.
Proof.
  intros Harch Hlatest.
  assert (Ha : lookup fs' (archive_dir self) = lookup fs (archive_dir self))
    by (rewrite <- (app_nil_r (archive_dir self)); apply Harch).
  assert (Hl : lookup fs' (latest_dir self) = lookup fs (latest_dir self))
    by (rewrite <- (app_nil_r (latest_dir self)); apply Hlatest).
  assert (Hload : load_archive json_load self fs' =
                  load_archive json_load self fs).
  { unfold load_archive, exists_, iterdir. rewrite Ha.
    destruct (lookup fs (archive_dir self)) as [[c | es] | ];
      try reflexivity.
    simpl. apply for_each_ext. intros acc p Hp.
    apply (Permutation_in _ (sorted_by_perm path_ltb _)) in Hp.
    apply in_map_iff in Hp. destruct Hp as ([name child] & <- & _).
    apply load_archive_subdir_ext. intros q. unfold joinpath. simpl.
    rewrite <- !app_assoc. apply Harch. }
  unfold load_benchmark_data. rewrite Hload.
  destruct (load_archive json_load self fs) as [e | data]; [reflexivity | ].
  simpl. unfold load_latest, exists_. cbn zeta.
  pose proof (Hlatest ["latest.json"%string]) as Hm.
  change (latest_dir self ++ ["latest.json"%string])
    with (latest_dir self // "latest.json") in Hm.
  rewrite Hm.
  assert (Hglob : glob_parsed_json fs' (latest_dir self) =
                  glob_parsed_json fs (latest_dir self))
    by (unfold glob_parsed_json; now rewrite Hl).
  rewrite Hglob.
  destruct (glob_parsed_json fs (latest_dir self)) as [|first rest] eqn:Hg;
    [reflexivity | ].
  destruct (glob_children fs (latest_dir self) first) as [name ->];
    [rewrite Hg; now left | ].
  now rewrite (open_json_load_ext fs fs' (latest_dir self // name))
    by apply Hlatest.
Qed.

Lemma under_sibling_apart (d q : path) (a b : string) :
  a <> b ->
  ~ is_prefix (d // a ++ q) (d // b) /\ ~ is_prefix (d // b) (d // a ++ q).
Proof.
  intros Hne. split; [now apply below_sibling_not_prefix | ].
  unfold joinpath. intros [r Hr]. rewrite <- !app_assoc in Hr.
  apply app_inv_head in Hr. simpl in Hr. congruence.
Qed.

(** X10: [run] leaves its inputs alone: after a call, successful or not,
    [load_benchmark_data] gives exactly what it gave before the call. *)
Theorem load_unchanged_by_run :
  forall (benchmark_dir : path) (now_html now_readme : datetime)
         (fs : node),
    let self := attributes benchmark_dir in
    load_benchmark_data json_load self
      (snd (run_ self now_html now_readme fs)) =
    load_benchmark_data json_load self fs.
Proof.
  intros bd now_html now_readme fs self.
  apply load_benchmark_data_ext; intros q.
  - destruct (under_sibling_apart bd q "archive" "reports") as [H1 H2];
      [discriminate | ].
    now apply run_frame.
  - destruct (under_sibling_apart bd q "latest" "reports") as [H1 H2];
      [discriminate | ].
    now apply run_frame.
Qed.

Lemma write_into_dir (d : path) (a text : string) (fs : node) :
  is_dir fs d = true ->
  is_dir fs (d // a) = false ->
  exists fs',
    write_text fs (d // a) text = inr fs' /\
    lookup fs' (d // a) = Some (File text) /\
    is_dir fs' d = true /\
    (forall b, b <> a -> lookup fs' (d // b) = lookup fs (d // b)).
Proof.
  intros Hd Ha.
  destruct (write_text_ok d a text fs Hd Ha) as [fs' Hw].
  pose proof (write_text_lookup _ _ fs fs' Hw) as Hl.
  exists fs'. repeat split; try assumption.
  - apply (child_exists_parent_dir fs' d a). unfold exists_.
    now rewrite Hl.
  - intros b Hb.
    apply (write_text_frame _ _ fs fs' Hw); apply sibling_not_prefix;
      congruence.
Qed.

Lemma charts_ok (self : BenchmarkVisualizer) (data : list pyval) (fs : node)
    (r : row) (rows : list row) (df : frame) (image : chart -> string) :
  VISUALIZATION_AVAILABLE = true ->
  data <> [] ->
  flatten data = inr (r :: rows) ->
  to_frame (r :: rows) = inr df ->
  (forall c, plot c df = inr (image c)) ->
  is_dir fs (reports_dir self) = true ->
  (forall c, is_dir fs (reports_dir self // chart_file c) = false) ->
  exists fs',
    trends_ self data fs =
      (inr (String.concat nl
              [chart_markdown OverallTrends; chart_markdown GroupPerformance;
               chart_markdown RecentChanges;
               chart_markdown PerformanceDistribution]),
       fs') /\
    (forall c,
       lookup fs' (reports_dir self // chart_file c) =
         Some (File (image c))) /\
    is_dir fs' (reports_dir self) = true /\
    (forall b, (forall c, b <> chart_file c) ->
       lookup fs' (reports_dir self // b) =
         lookup fs (reports_dir self // b)).
Proof.
  intros Hvis Hdata Hflat Hframe Hplot Hdir Hfree.
  set (d := reports_dir self) in *.
  assert (Hfree' : forall c fs0,
            lookup fs0 (d // chart_file c) = lookup fs (d // chart_file c) ->
            is_dir fs0 (d // chart_file c) = false).
  { intros c fs0 H. unfold is_dir. rewrite H. apply (Hfree c). }
  destruct (write_into_dir d (chart_file OverallTrends)
              (image OverallTrends) fs Hdir (Hfree _))
    as (fs1 & Hw1 & Hl1 & Hd1 & Ho1).
  destruct (write_into_dir d (chart_file GroupPerformance)
              (image GroupPerformance) fs1 Hd1)
    as (fs2 & Hw2 & Hl2 & Hd2 & Ho2).
  { apply Hfree'. apply Ho1. discriminate. }
  destruct (write_into_dir d (chart_file RecentChanges)
              (image RecentChanges) fs2 Hd2)
    as (fs3 & Hw3 & Hl3 & Hd3 & Ho3).
  { apply Hfree'. rewrite Ho2, Ho1 by discriminate. reflexivity. }
  destruct (write_into_dir d (chart_file PerformanceDistribution)
              (image PerformanceDistribution) fs3 Hd3)
    as (fs4 & Hw4 & Hl4 & Hd4 & Ho4).
  { apply Hfree'. rewrite Ho3, Ho2, Ho1 by discriminate. reflexivity. }
  exists fs4. split; [ | split; [ | split; [exact Hd4 | ]]].
  - unfold generate_performance_trends. rewrite Hvis.
    destruct data as [|d0 data]; [congruence | ]. cbn [negb orb].
    unfold bind, lift at 1 2. rewrite Hflat, Hframe.
    unfold _generate_overall_trends_chart,
      _generate_group_performance_chart, _generate_recent_changes_chart,
      _generate_distribution_chart, generate_chart, bind, lift, writes, ret.
    rewrite !Hplot. fold d. rewrite Hw1, Hw2, Hw3, Hw4. reflexivity.
  - intros [ | | | ].
    + rewrite Ho4, Ho3, Ho2 by discriminate. exact Hl1.
    + rewrite Ho4, Ho3 by discriminate. exact Hl2.
    + rewrite Ho4 by discriminate. exact Hl3.
    + exact Hl4.
  - intros b Hb.
    rewrite Ho4, Ho3, Ho2, Ho1 by apply Hb. reflexivity.
Qed.

(** X11: when the plotting stack is imported, the runs flatten to at least
    one row and every drawing call succeeds, [generate_performance_trends]
    writes the four images into the reports directory and returns the same
    four image references whatever the data are. *)
Theorem charts_written_and_referenced :
  forall (self : BenchmarkVisualizer) (data : list pyval) (fs : node)
         (r : row) (rows : list row) (df : frame)
         (image : chart -> string),
    VISUALIZATION_AVAILABLE = true ->
    data <> [] ->
    flatten data = inr (r :: rows) ->
    to_frame (r :: rows) = inr df ->
    (forall c, plot c df = inr (image c)) ->
    is_dir fs (reports_dir self) = true ->
    (forall c, is_dir fs (reports_dir self // chart_file c) = false) ->
    exists fs',
      trends_ self data fs =
        (inr ("![Performance Trends](./performance_trends.png)" ++ nl ++ nl ++
              "![Group Performance](./group_performance.png)" ++ nl ++ nl ++
              "![Recent Changes](./recent_changes.png)" ++ nl ++ nl ++
              "![Performance Distribution](./performance_distribution.png)"
              ++ nl)%string,
         fs') /\
      (forall c,
         lookup fs' (reports_dir self // chart_file c) =
           Some (File (image c))).
Proof.
  intros self data fs r rows df image Hvis Hdata Hflat Hframe Hplot
    Hdir Hfree.
  destruct (charts_ok self data fs r rows df image
              Hvis Hdata Hflat Hframe Hplot Hdir Hfree)
    as (fs' & Htrends & Hfiles & _).
  exists fs'. split; [exact Htrends | exact Hfiles].
Qed.

Lemma run_no_data (bd : path) (now_html now_readme : datetime) (fs : node) :
  is_dir fs bd = true ->
  (exists_ fs (bd // "reports") = false \/
   is_dir fs (bd // "reports") = true) ->
  is_dir fs (bd // "reports" // "index.html") = false ->
  is_dir fs (bd // "reports" // "README.md") = false ->
  (exists_ fs (bd // "archive") = false \/
   lookup fs (bd // "archive") = Some (Dir [])) ->
  no_latest_data (attributes bd) fs = true ->
  exists fs',
    run_ (attributes bd) now_html now_readme fs = (inr tt, fs') /\
    lookup fs' (bd // "reports" // "index.html") =
      Some (File (generate_index_html now_html no_data_message)) /\
    lookup fs' (bd // "reports" // "README.md") =
      Some (File (readme_text no_data_message now_readme)).
Proof.
  intros Hbd Hreports Hhtml Hmd Harch Hlatest.
  destruct (mkdir_ok bd "reports" fs Hbd Hreports) as (fs1 & Hmk & Hrd).
  pose proof (mkdir_frame _ fs fs1 Hmk) as Hframe.
  assert (Hload : load_benchmark_data json_load (attributes bd) fs1 = inr []).
  { apply load_benchmark_data_nothing.
    - change (archive_dir (attributes bd)) with (bd // "archive").
      unfold exists_ in *.
      rewrite Hframe by (apply sibling_not_prefix; discriminate).
      exact Harch.
    - unfold no_latest_data, exists_, glob_parsed_json in *.
      change (latest_dir (attributes bd)) with (bd // "latest") in *.
      rewrite (Hframe (bd // "latest"))
        by (apply sibling_not_prefix; discriminate).
      rewrite (Hframe (bd // "latest" // "latest.json")); [exact Hlatest | ].
      apply (below_sibling_not_prefix bd ["latest.json"%string]).
      discriminate. }
  destruct (write_into_dir (bd // "reports") "index.html"
              (generate_index_html now_html no_data_message) fs1 Hrd)
    as (fs2 & Hw1 & Hl1 & Hrd2 & Ho1).
  { unfold is_dir in *. now rewrite Hframe by apply longer_not_prefix. }
  destruct (write_into_dir (bd // "reports") "README.md"
              (readme_text no_data_message now_readme) fs2 Hrd2)
    as (fs3 & Hw2 & Hl2 & _ & Ho2).
  { unfold is_dir in *. rewrite Ho1 by discriminate.
    now rewrite Hframe by apply longer_not_prefix. }
  exists fs3. repeat split.
  - unfold run, bind, writes, reads.
    change (reports_dir (attributes bd)) with (bd // "reports").
    rewrite Hmk, Hload.
    rewrite (trends_of_no_runs VISUALIZATION_AVAILABLE summary_of row frame
               flatten to_frame plot).
    cbn zeta. now rewrite Hw1, Hw2.
  - rewrite Ho2 by discriminate. exact Hl1.
  - exact Hl2.
Qed.

(** X19: started on a missing benchmark directory that can be created,
    [main] only creates it; started a second time, it finds the directory
    empty and writes a page and a summary that both carry the no-data
    sentence. *)
Theorem main_twice_writes_dashboard :
  forall (BENCHMARK_DIR : option path)
         (now1 now2 now_html now_readme : datetime) (fs : node),
    let benchmark_dir := environ_get BENCHMARK_DIR ["benchmark-results"] in
    exists_ fs benchmark_dir = false ->
    blocked fs benchmark_dir = false ->
    (VISUALIZATION_AVAILABLE = true -> style_setup = inr tt) ->
    exists fs1 fs2,
      main_ BENCHMARK_DIR now1 now2 fs = (inr tt, fs1) /\
      exists_ fs1 (benchmark_dir // "reports") = false /\
      main_ BENCHMARK_DIR now_html now_readme fs1 = (inr tt, fs2) /\
      lookup fs2 (benchmark_dir // "reports" // "index.html") =
        Some (File (generate_index_html now_html no_data_message)) /\
      lookup fs2 (benchmark_dir // "reports" // "README.md") =
        Some (File (readme_text no_data_message now_readme)).
Proof.
  intros BENCHMARK_DIR now1 now2 now_html now_readme fs bd Hex Hbl Hstyle.
  destruct (mkdir_parents_ok bd fs Hex Hbl) as (fs1 & Hmk & Hnew).
  assert (Hunder : forall q, q <> [] -> lookup fs1 (bd ++ q) = None).
  { intros q Hq. rewrite lookup_app, Hnew. now apply lookup_empty_dir. }
  assert (Hentry : forall a, lookup fs1 (bd // a) = None)
    by (intros a; apply Hunder; discriminate).
  destruct (run_no_data bd now_html now_readme fs1)
    as (fs2 & Hrun & Hhtml & Hmd).
  { unfold is_dir. now rewrite Hnew. }
  { left. unfold exists_. now rewrite Hentry. }
  { unfold is_dir, joinpath. rewrite <- app_assoc.
    now rewrite Hunder by discriminate. }
  { unfold is_dir, joinpath. rewrite <- app_assoc.
    now rewrite Hunder by discriminate. }
  { left. unfold exists_. now rewrite Hentry. }
  { unfold no_latest_data, exists_. cbn [latest_dir attributes].
    unfold joinpath at 1 2. rewrite <- app_assoc.
    now rewrite Hunder by discriminate. }
  exists fs1, fs2. repeat split.
  - unfold main, bind, reads, writes. fold bd. rewrite Hex. cbn [negb].
    now rewrite Hmk.
  - unfold exists_. now rewrite Hentry.
  - unfold main, bind, reads, lift, try_except_Exception. fold bd.
    unfold exists_ at 1. rewrite Hnew. cbn [negb fst snd].
    unfold __init__.
    assert (Hinit : (if VISUALIZATION_AVAILABLE then style_setup
                     else inr tt) = inr tt)
      by (destruct VISUALIZATION_AVAILABLE; [now apply Hstyle | reflexivity]).
    rewrite Hinit. cbn. now rewrite Hrun.
  - exact Hhtml.
  - exact Hmd.
Qed.

(** X20: the trends content can be read back from either file: at one
    clock reading, two pages are equal exactly when their trends contents
    are, and so are two summaries. *)
Theorem trends_content_recoverable :
  forall (now : datetime) (content1 content2 : string),
    (generate_index_html now content1 = generate_index_html now content2 <->
     content1 = content2) /\
    (readme_text content1 now = readme_text content2 now <->
     content1 = content2).
Proof.
  intros now c1 c2. split; (split; [ | now intros ->]).
  - unfold generate_index_html. cbn [app].
    rewrite !app_comm_cons, !app_assoc.
    rewrite !concat_split by (unfold html_tail; discriminate).
    intros H. apply append_inj_l in H.
    rewrite !append_assoc in H. apply append_inj_l in H.
    now apply append_inj_r in H.
  - unfold readme_text. cbn [app].
    rewrite !concat_split by (unfold readme_body; discriminate).
    intros H. apply append_inj_l in H. now apply append_inj_r in H.
Qed.

(** X23: the constructor runs outside the [try]: when the plotting stack is
    imported and setting its style raises, [main] raises that exception on
    an existing benchmark directory, before [run] is entered; the exit
    status is one and nothing is written. *)
Theorem style_failure_escapes_main :
  forall (BENCHMARK_DIR : option path) (now_html now_readme : datetime)
         (fs : node) (e : exn),
    exists_ fs (environ_get BENCHMARK_DIR ["benchmark-results"]) = true ->
    VISUALIZATION_AVAILABLE = true ->
    style_setup = inl e ->
    main_ BENCHMARK_DIR now_html now_readme fs = (inl e, fs) /\
    exit_status (fst (main_ BENCHMARK_DIR now_html now_readme fs)) = 1%Z.
Proof.
  intros BENCHMARK_DIR now_html now_readme fs e Hex Hvis Hstyle.
  unfold main, bind, reads, lift, __init__.
  rewrite Hex, Hvis, Hstyle. split; reflexivity.
Qed.

(** How a successful call of [generate_performance_trends] came about:
    through the text summary, which touches no file, or through the four
    charts. *)
Lemma trends_cases (self : BenchmarkVisualizer) (data : list pyval)
    (fs fs' : node) (content : string) :
  trends_ self data fs = (inr content, fs') ->
  (forall fs0, trends_ self data fs0 = (inr content, fs0)) \/
  (exists r rows df image,
     VISUALIZATION_AVAILABLE = true /\ data <> [] /\
     flatten data = inr (r :: rows) /\
     to_frame (r :: rows) = inr df /\
     (forall c, plot c df = inr (image c)) /\
     content =
       String.concat nl
         [chart_markdown OverallTrends; chart_markdown GroupPerformance;
          chart_markdown RecentChanges;
          chart_markdown PerformanceDistribution] /\
     (forall c,
        lookup fs' (reports_dir self // chart_file c) =
          Some (File (image c)))).
Proof.
  unfold generate_performance_trends.
  destruct (negb VISUALIZATION_AVAILABLE ||
            match data with [] => true | _ :: _ => false end) eqn:Hguard.
  { unfold lift. intros [= H <-]. left. intros fs0. now rewrite H. }
  apply orb_false_iff in Hguard. destruct Hguard as [Hvis Hdata].
  apply negb_false_iff in Hvis.
  unfold bind at 1, lift at 1.
  destruct (flatten data) as [e | [|r rows]] eqn:Hflat; [discriminate | | ].
  { unfold lift. intros [= H <-]. left. intros fs0. now rewrite H. }
  unfold bind at 1, lift at 1.
  destruct (to_frame (r :: rows)) as [e | df] eqn:Hframe; [discriminate | ].
  unfold _generate_overall_trends_chart, _generate_group_performance_chart,
    _generate_recent_changes_chart, _generate_distribution_chart,
    generate_chart, bind, lift, writes, ret.
  set (d := reports_dir self).
  destruct (plot OverallTrends df) as [e | i1] eqn:Hp1; [discriminate | ].
  destruct (write_text fs (d // chart_file OverallTrends) i1)
    as [e | fs1] eqn:Hw1; [discriminate | ].
  destruct (plot GroupPerformance df) as [e | i2] eqn:Hp2; [discriminate | ].
  destruct (write_text fs1 (d // chart_file GroupPerformance) i2)
    as [e | fs2] eqn:Hw2; [discriminate | ].
  destruct (plot RecentChanges df) as [e | i3] eqn:Hp3; [discriminate | ].
  destruct (write_text fs2 (d // chart_file RecentChanges) i3)
    as [e | fs3] eqn:Hw3; [discriminate | ].
  destruct (plot PerformanceDistribution df) as [e | i4] eqn:Hp4;
    [discriminate | ].
  destruct (write_text fs3 (d // chart_file PerformanceDistribution) i4)
    as [e | fs4] eqn:Hw4; [discriminate | ].
  intros [= <- <-]. right.
  exists r, rows, df,
    (fun c => match c with
              | OverallTrends => i1
              | GroupPerformance => i2
              | RecentChanges => i3
              | PerformanceDistribution => i4
              end).
  repeat split; try assumption.
  - now destruct data.
  - now intros [ | | | ].
  - assert (Hsib : forall fsa fsb a b text,
              write_text fsa (d // a) text = inr fsb -> a <> b ->
              lookup fsb (d // b) = lookup fsa (d // b)).
    { intros fsa fsb a b text Hw Hab.
      apply (write_text_frame _ _ fsa fsb Hw); apply sibling_not_prefix;
        congruence. }
    intros [ | | | ].
    + rewrite (Hsib _ _ _ _ _ Hw4), (Hsib _ _ _ _ _ Hw3),
        (Hsib _ _ _ _ _ Hw2) by discriminate.
      exact (write_text_lookup _ _ _ _ Hw1).
    + rewrite (Hsib _ _ _ _ _ Hw4), (Hsib _ _ _ _ _ Hw3) by discriminate.
      exact (write_text_lookup _ _ _ _ Hw2).
    + rewrite (Hsib _ _ _ _ _ Hw4) by discriminate.
      exact (write_text_lookup _ _ _ _ Hw3).
    + exact (write_text_lookup _ _ _ _ Hw4).
Qed.

Lemma chart_file_not_report (c : chart) :
  chart_file c <> "index.html"%string /\ chart_file c <> "README.md"%string.
Proof. destruct c; split; discriminate. Qed.

(** X21: a run that follows a successful run succeeds as well: it loads
    the same data, produces the same trends content, and overwrites the
    page and the summary with that content at the new clock readings. *)
Theorem rerun_succeeds :
  forall (benchmark_dir : path) (now1 now2 now3 now4 : datetime)
         (fs fs1 : node),
    let self := attributes benchmark_dir in
    run_ self now1 now2 fs = (inr tt, fs1) ->
    exists fs2 content,
      run_ self now3 now4 fs1 = (inr tt, fs2) /\
      lookup fs1 (reports_dir self // "index.html") =
        Some (File (generate_index_html now1 content)) /\
      lookup fs2 (reports_dir self // "index.html") =
        Some (File (generate_index_html now3 content)) /\
      lookup fs2 (reports_dir self // "README.md") =
        Some (File (readme_text content now4)).
Proof.
  intros bd now1 now2 now3 now4 fs fs1 self Hrun.
  pose proof (run_frame self now1 now2) as Hrunframe.
  set (d := bd // "reports").
  change (reports_dir self) with d in *.
  assert (Hsib : forall fsa fsb a b text,
            write_text fsa (d // a) text = inr fsb -> a <> b ->
            lookup fsb (d // b) = lookup fsa (d // b)).
  { intros fsa fsb a b text Hw Hab.
    apply (write_text_frame _ _ fsa fsb Hw); apply sibling_not_prefix;
      congruence. }
  (* the first run, step by step *)
  unfold run, bind, writes, reads in Hrun.
  change (reports_dir self) with d in Hrun.
  destruct (mkdir fs d) as [e | fsA] eqn:HmkA; [discriminate | ].
  destruct (load_benchmark_data json_load self fsA) as [e | data] eqn:Hload;
    [discriminate | ].
  destruct (trends_ self data fsA) as [[e | content] fsB] eqn:Htrends;
    [discriminate | ].
  cbn zeta in Hrun.
  destruct (write_text fsB (d // "index.html") _) as [e | fsC] eqn:Hhtml;
    [discriminate | ].
  destruct (write_text fsC (d // "README.md") _) as [e | fsD] eqn:Hmd;
    [discriminate | ].
  injection Hrun as <-.
  assert (Hl_md : lookup fsD (d // "README.md") =
                  Some (File (readme_text content now2)))
    by exact (write_text_lookup _ _ _ _ Hmd).
  assert (Hl_html : lookup fsD (d // "index.html") =
                    Some (File (generate_index_html now1 content))).
  { rewrite (Hsib _ _ _ _ _ Hmd) by discriminate.
    exact (write_text_lookup _ _ _ _ Hhtml). }
  assert (Hd : is_dir fsD d = true).
  { apply (child_exists_parent_dir fsD d "README.md").
    unfold exists_. now rewrite Hl_md. }
  assert (Hbd : is_dir fsD bd = true).
  { apply (child_exists_parent_dir fsD bd "reports").
    unfold exists_, is_dir in *. fold d.
    now destruct (lookup fsD d). }
  (* the second run *)
  destruct (mkdir_ok bd "reports" fsD Hbd (or_intror Hd))
    as (fsA' & HmkA' & HdA').
  fold d in HmkA', HdA'.
  pose proof (mkdir_frame _ fsD fsA' HmkA') as HframeA'.
  assert (Hunder : forall a, lookup fsA' (d // a) = lookup fsD (d // a))
    by (intros a; apply HframeA', longer_not_prefix).
  assert (Hload' : load_benchmark_data json_load self fsA' = inr data).
  { rewrite <- Hload. apply load_benchmark_data_ext; intros q.
    - destruct (under_sibling_apart bd q "archive" "reports") as [H1 H2];
        [discriminate | ].
      rewrite HframeA' by exact H1.
      rewrite (mkdir_frame _ fs fsA HmkA) by exact H1.
      specialize (Hrunframe _ H1 H2 fs).
      unfold run, bind, writes, reads in Hrunframe.
      change (reports_dir self) with d in Hrunframe.
      rewrite HmkA, Hload, Htrends in Hrunframe. cbn zeta in Hrunframe.
      now rewrite Hhtml, Hmd in Hrunframe.
    - destruct (under_sibling_apart bd q "latest" "reports") as [H1 H2];
        [discriminate | ].
      rewrite HframeA' by exact H1.
      rewrite (mkdir_frame _ fs fsA HmkA) by exact H1.
      specialize (Hrunframe _ H1 H2 fs).
      unfold run, bind, writes, reads in Hrunframe.
      change (reports_dir self) with d in Hrunframe.
      rewrite HmkA, Hload, Htrends in Hrunframe. cbn zeta in Hrunframe.
      now rewrite Hhtml, Hmd in Hrunframe. }
  assert (Htrends' : exists fsB',
            trends_ self data fsA' = (inr content, fsB') /\
            is_dir fsB' d = true /\
            lookup fsB' (d // "index.html") = lookup fsD (d // "index.html") /\
            lookup fsB' (d // "README.md") = lookup fsD (d // "README.md")).
  { destruct (trends_cases self data fsA fsB content Htrends)
      as [Hpure | (r & rows & df & image & Hvis & Hne & Hflat & Hfr &
                   Hplot & -> & Hfiles)].
    - exists fsA'. now rewrite Hpure, !Hunder.
    - change (reports_dir self) with d in Hfiles.
      destruct (charts_ok self data fsA' r rows df image
                  Hvis Hne Hflat Hfr Hplot HdA')
        as (fsB' & Ht & _ & HdB' & Hother).
      { intros c. destruct (chart_file_not_report c) as [H1 H2].
        change (reports_dir self) with d. unfold is_dir.
        rewrite Hunder, (Hsib _ _ _ _ _ Hmd), (Hsib _ _ _ _ _ Hhtml)
          by congruence.
        now rewrite Hfiles. }
      change (reports_dir self) with d in *.
      exists fsB'. rewrite Ht, !Hother, !Hunder.
      + repeat split. exact HdB'.
      + intros c. destruct (chart_file_not_report c). congruence.
      + intros c. destruct (chart_file_not_report c). congruence. }
  destruct Htrends' as (fsB' & Htrends' & HdB' & Hk_html & Hk_md).
  destruct (write_into_dir d "index.html"
              (generate_index_html now3 content) fsB' HdB')
    as (fsC' & Hhtml' & Hl_html' & HdC' & Ho_html').
  { unfold is_dir. now rewrite Hk_html, Hl_html. }
  destruct (write_into_dir d "README.md" (readme_text content now4)
              fsC' HdC')
    as (fsD' & Hmd' & Hl_md' & _ & Ho_md').
  { unfold is_dir. rewrite Ho_html' by discriminate.
    now rewrite Hk_md, Hl_md. }
  exists fsD', content. repeat split.
  - unfold run, bind, writes, reads. change (reports_dir self) with d.
    rewrite HmkA', Hload', Htrends'. cbn zeta. now rewrite Hhtml', Hmd'.
  - exact Hl_html.
  - rewrite Ho_md' by discriminate. exact Hl_html'.
  - exact Hl_md'.
Qed.

End Effects.

(** ** The text summary and the rows *)

Section Summary.

Variable repr : pyval -> string.
Variable dict_slice_error : exn.
Variable average : list pyval -> result pyval.
Variable py_min : list pyval -> result pyval.
Variable py_max : list pyval -> result pyval.
Variable format_2f : pyval -> result string.
Variable div_million : pyval -> result pyval.

Local Notation "'summary_'" :=
  (summary_body repr dict_slice_error average py_min py_max format_2f).
Local Notation "'text_summary_'" := (_generate_text_summary summary_).
Local Notation "'slice8_'" := (py_slice8 dict_slice_error).
Local Notation "'flatten_'" := (flatten_runs dict_slice_error div_million).

Lemma text_summary_last (data : list pyval) (latest : pyval) :
  text_summary_ (data ++ [latest]) = summary_ [latest].
Proof.
  unfold _generate_text_summary.
  destruct (data ++ [latest]) as [|d0 rest] eqn:H;
    [now destruct data | ].
  rewrite <- H. unfold summary_body. now rewrite last_last.
Qed.

(** X12: the text summary describes the last run only: the runs before it
    have no effect on the text, nor on whether an exception is raised. *)
Theorem summary_of_last_run_only :
  forall (data : list pyval) (latest : pyval),
    text_summary_ (data ++ [latest]) = text_summary_ [latest].
Proof.
  intros data latest.
  rewrite text_summary_last. symmetry. exact (text_summary_last [] latest).
Qed.

(** X13: for a last run with no benchmarks the text summary is exactly the
    header, the timestamp, the first eight characters of the commit and a
    total of zero; no group section is printed. *)
Theorem summary_without_benchmarks :
  forall (data : list pyval) (latest : pyval) (t c : string),
    py_get_default latest "timestamp" (PStr "unknown") = inr (PStr t) ->
    py_get_default latest "commit" (PStr "unknown") = inr (PStr c) ->
    py_get_default latest "benchmarks" (PList []) = inr (PList []) ->
    text_summary_ (data ++ [latest]) =
      inr ("## üìä Performance Summary (Text)" ++ nl ++ nl ++
           "**Last Updated**: " ++ t ++ nl ++
           "**Commit**: " ++ str_slice_to 8 c ++ nl ++
           "**Total Benchmarks**: 0" ++ nl)%string.
Proof.
  intros data latest t c Ht Hc Hb.
  rewrite text_summary_last. unfold summary_body. cbn [last].
  rewrite Hb, Ht, Hc. cbn. reflexivity.
Qed.

(** X14: when the first benchmark of the last run is an object without a
    ["group"] key, the text summary raises [KeyError]. *)
Theorem summary_missing_group_raises :
  forall (data : list pyval) (latest commit commit8 : pyval)
         (fields : list (string * pyval)) (benchmarks : list pyval),
    py_get_default latest "benchmarks" (PList []) =
      inr (PList (PDict fields :: benchmarks)) ->
    py_get_default latest "commit" (PStr "unknown") = inr commit ->
    slice8_ commit = inr commit8 ->
    assoc "group" fields = None ->
    text_summary_ (data ++ [latest]) = inl KeyError.
Proof.
  intros data latest commit commit8 fields benchmarks Hb Hc Hs Hg.
  rewrite text_summary_last. unfold summary_body. cbn [last].
  rewrite Hb. destruct latest; try discriminate. cbn in Hc |- *.
  injection Hc as Hc. rewrite Hc, Hs. cbn.
  unfold add_benchmark, py_getitem. now rewrite Hg.
Qed.

Lemma concat_code_points (s : string) :
  String.concat "" (code_points s) = s.
Proof.
  induction s as [|c rest IH]; [reflexivity | ].
  cbn [code_points]. cbv zeta.
  destruct rest as [|d rest'].
  - reflexivity.
  - destruct (code_points (String d rest')) as [|x xs] eqn:Hcp.
    + cbn in IH. discriminate.
    + destruct (is_continuation d).
      * destruct xs as [|y ys]; cbn in IH |- *; now rewrite IH.
      * change (String.concat "" (String c "" :: x :: xs))
          with (String c (String.concat "" (x :: xs))).
        now rewrite IH.
Qed.

Lemma concat_empty_app (l1 l2 : list string) :
  String.concat "" (l1 ++ l2) =
    (String.concat "" l1 ++ String.concat "" l2)%string.
Proof.
  induction l1 as [|a l1 IH]; [reflexivity | ].
  destruct l1 as [|b l1].
  - destruct l2; cbn; [now rewrite append_empty_r | reflexivity].
  - change (String.concat "" ((a :: b :: l1) ++ l2))
      with (a ++ String.concat "" ((b :: l1) ++ l2))%string.
    rewrite IH. cbn. now rewrite append_assoc.
Qed.

(** X15: the commit printed in the summary and stored in each row,
    [commit[:8]], is an initial part of the commit string, and the whole of
    it when the string has at most eight characters. *)
Theorem commit_slice_is_prefix :
  forall (s : string),
    slice8_ (PStr s) = inr (PStr (str_slice_to 8 s)) /\
    (exists rest, s = (str_slice_to 8 s ++ rest)%string) /\
    (List.length (code_points s) <= 8 -> str_slice_to 8 s = s).
Proof.
  intros s. split; [reflexivity | split].
  - exists (String.concat "" (skipn 8 (code_points s))).
    unfold str_slice_to. rewrite <- concat_empty_app, firstn_skipn.
    now rewrite concat_code_points.
  - intros Hlen. unfold str_slice_to.
    rewrite firstn_all2 by exact Hlen. apply concat_code_points.
Qed.

Section NoSamples.

Variable VISUALIZATION_AVAILABLE : bool.
Variable summary_of : list pyval -> result string.
Variable frame : Type.
Variable to_frame : list FlattenedRecord -> result frame.
Variable plot : chart -> frame -> result string.

Lemma flatten_no_samples (data : list pyval) :
  Forall (fun entry =>
            exists commit commit8 benchmarks,
              py_get_default entry "commit" (PStr "unknown") = inr commit /\
              slice8_ commit = inr commit8 /\
              py_get_default entry "benchmarks" (PList []) =
                inr benchmarks /\
              py_iter benchmarks = inr []) data ->
  flatten_ data = inr [].
Proof.
  unfold flatten_runs. induction 1 as [|entry data Hentry _ IH];
    [reflexivity | ].
  destruct Hentry as (commit & commit8 & benchmarks & Hc & Hs & Hb & Hi).
  cbn [for_each]. unfold flatten_entry at 1.
  destruct entry; try discriminate. cbn in Hc, Hb |- *.
  injection Hc as Hc. injection Hb as Hb.
  rewrite Hc, Hb. cbn. rewrite Hs. cbn. rewrite Hi. cbn. exact IH.
Qed.

(** X16: when no run holds a benchmark, the flattening loop yields no row,
    and [generate_performance_trends] returns the text summary and writes
    nothing, whether or not the plotting stack was imported. *)
Theorem no_samples_no_charts :
  forall (self : BenchmarkVisualizer) (data : list pyval) (fs : node),
    Forall (fun entry =>
              exists commit commit8 benchmarks,
                py_get_default entry "commit" (PStr "unknown") =
                  inr commit /\
                slice8_ commit = inr commit8 /\
                py_get_default entry "benchmarks" (PList []) =
                  inr benchmarks /\
                py_iter benchmarks = inr []) data ->
    generate_performance_trends VISUALIZATION_AVAILABLE summary_of
      FlattenedRecord frame flatten_ to_frame plot self data fs =
      (_generate_text_summary summary_of data, fs).
Proof.
  intros self data fs Hdata. unfold generate_performance_trends.
  destruct (negb VISUALIZATION_AVAILABLE || _); [reflexivity | ].
  unfold bind, lift. now rewrite (flatten_no_samples data Hdata).
Qed.

End NoSamples.

(** *** Grouping *)

Lemma nodup_snoc {A : Type} (l : list A) (x : A) :
  NoDup l -> ~ In x l -> NoDup (l ++ [x]).
Proof.
  induction 1 as [|y l Hy Hl IH]; intros Hx; simpl.
  - constructor; [intros [] | constructor].
  - constructor.
    + intros H. apply in_app_or in H. destruct H as [H | [-> | []]].
      * now apply Hy.
      * apply Hx. now left.
    + apply IH. intros H. apply Hx. now right.
Qed.

Lemma filter_snoc {A : Type} (f : A -> bool) (l : list A) (x : A) :
  filter f (l ++ [x]) = filter f l ++ (if f x then [x] else []).
Proof. now rewrite filter_app. Qed.

(** Where an entry of the grown dict comes from. *)
Lemma groups_append_in (groups : list (pyval * list pyval)) (n : string)
    (v k : pyval) (vs : list pyval) :
  (forall g, In g (map fst groups) -> exists name, g = PStr name) ->
  NoDup (map fst groups) ->
  In (k, vs) (groups_append groups (PStr n) v) ->
  (In (k, vs) groups /\ k <> PStr n) \/
  (k = PStr n /\
   exists vs0, vs = vs0 ++ [v] /\
     (In (k, vs0) groups \/
      (vs0 = [] /\ ~ In (PStr n) (map fst groups)))).
Proof.
  induction groups as [|[k0 vs0] groups IH]; intros Hstr Hnd Hin.
  - destruct Hin as [[= <- <-] | []]. right. split; [reflexivity | ].
    exists []. split; [reflexivity | right]. split; [reflexivity | ].
    intros [].
  - destruct (Hstr k0 (or_introl eq_refl)) as [name0 ->].
    cbn [map fst] in Hnd. apply NoDup_cons_iff in Hnd.
    destruct Hnd as [Hk0 Hnd'].
    cbn [groups_append py_eq] in Hin.
    destruct (String.eqb name0 n) eqn:Heq;
      [apply String.eqb_eq in Heq; subst name0
      | apply String.eqb_neq in Heq; rename Heq into Hne].
    + destruct Hin as [[= <- <-] | Hin].
      * right. split; [reflexivity | ]. exists vs0.
        split; [reflexivity | left; now left].
      * left. split; [now right | ]. intros ->. apply Hk0.
        now apply (in_map fst) in Hin.
    + destruct Hin as [[= <- <-] | Hin].
      * left. split; [now left | congruence].
      * destruct (IH (fun g Hg => Hstr g (or_intror Hg)) Hnd' Hin)
          as [[H1 H2] | (-> & vs1 & -> & H)].
        -- left. split; [now right | exact H2].
        -- right. split; [reflexivity | ]. exists vs1.
           split; [reflexivity | ].
           destruct H as [H | [-> H]]; [left; now right | right].
           split; [reflexivity | ].
           intros [H' | H']; [cbn in H'; congruence | ].
           now apply H.
Qed.

(** The keys of the grown dict. *)
Lemma groups_append_keys (groups : list (pyval * list pyval)) (n : string)
    (v : pyval) :
  (forall g, In g (map fst groups) -> exists name, g = PStr name) ->
  (In (PStr n) (map fst groups) /\
   map fst (groups_append groups (PStr n) v) = map fst groups) \/
  (~ In (PStr n) (map fst groups) /\
   map fst (groups_append groups (PStr n) v) =
     map fst groups ++ [PStr n]).
Proof.
  induction groups as [|[k0 vs0] groups IH]; intros Hstr.
  - right. split; [intros [] | reflexivity].
  - destruct (Hstr k0 (or_introl eq_refl)) as [name0 ->].
    cbn [groups_append py_eq].
    destruct (String.eqb name0 n) eqn:Heq;
      [apply String.eqb_eq in Heq; subst name0
      | apply String.eqb_neq in Heq; rename Heq into Hne].
    + left. split; [now left | reflexivity].
    + destruct (IH (fun g Hg => Hstr g (or_intror Hg)))
        as [[H1 H2] | [H1 H2]]; cbn [map fst].
      * left. split; [now right | now rewrite H2].
      * right. split; [ | now rewrite H2].
        intros [H | H]; [cbn in H; congruence | now apply H1].
Qed.

Lemma for_each_add_benchmark (items : list pyval)
    (samples : list (string * pyval)) :
  Forall2 (fun bench sample =>
             py_getitem bench "group" = inr (PStr (fst sample)) /\
             py_getitem bench "mean_ms" = inr (snd sample))
    items samples ->
  forall groups,
    for_each add_benchmark groups items =
      inr (fold_left
             (fun g sample => groups_append g (PStr (fst sample)) (snd sample))
             samples groups).
Proof.
  induction 1 as [|bench sample items samples [Hg Hm] _ IH]; intros groups;
    [reflexivity | ].
  cbn [for_each fold_left]. unfold add_benchmark at 1.
  rewrite Hg. cbn. rewrite Hm. cbn. apply IH.
Qed.

Lemma groups_of_samples :
  forall (items : list pyval) (samples : list (string * pyval)),
    Forall2 (fun bench sample =>
               py_getitem bench "group" = inr (PStr (fst sample)) /\
               py_getitem bench "mean_ms" = inr (snd sample))
      items samples ->
    exists groups,
      for_each add_benchmark [] items = inr groups /\
      NoDup (map fst groups) /\
      (forall name,
         In name (map fst samples) <-> In (PStr name) (map fst groups)) /\
      (forall k vs,
         In (k, vs) groups ->
         vs <> [] /\
         exists name,
           k = PStr name /\
           vs = map snd
                  (filter (fun sample => String.eqb (fst sample) name)
                     samples)).
Proof.
  intros items samples Hitems.
  rewrite (for_each_add_benchmark items samples Hitems).
  eexists. split; [reflexivity | ].
  set (step := fun g (sample : string * pyval) =>
                 groups_append g (PStr (fst sample)) (snd sample)).
  set (Inv := fun (groups : list (pyval * list pyval))
                  (done : list (string * pyval)) =>
    (forall g, In g (map fst groups) -> exists name, g = PStr name) /\
    NoDup (map fst groups) /\
    (forall name, In name (map fst done) -> In (PStr name) (map fst groups)) /\
    (forall k vs, In (k, vs) groups ->
       vs <> [] /\
       exists name, k = PStr name /\
         vs = map snd
                (filter (fun sample => String.eqb (fst sample) name) done))).
  assert (Hstep : forall todo groups done,
            Inv groups done ->
            Inv (fold_left step todo groups) (done ++ todo)).
  { induction todo as [|[n v] todo IH]; intros groups done HI.
    - now rewrite app_nil_r.
    - cbn [fold_left].
      replace (done ++ (n, v) :: todo) with ((done ++ [(n, v)]) ++ todo)
        by now rewrite <- app_assoc.
      apply IH. clear IH. destruct HI as (Hstr & Hnd & Hall & Hgrp).
      unfold step. cbn [fst snd].
      pose proof (groups_append_keys groups n v Hstr) as Hkeys.
      assert (Hnone : ~ In (PStr n) (map fst groups) ->
                filter (fun sample => String.eqb (fst sample) n) done = []).
      { intros Hnew. clear Hgrp. induction done as [|[m w] done' IHd];
          [reflexivity | ].
        cbn [filter fst]. destruct (String.eqb m n) eqn:E.
        - apply String.eqb_eq in E. subst m. elim Hnew. apply Hall.
          now left.
        - apply IHd. intros name Hn. apply Hall. now right. }
      split; [ | split; [ | split]].
      + intros g Hg. destruct Hkeys as [[_ Hk] | [_ Hk]]; rewrite Hk in Hg.
        * now apply Hstr.
        * apply in_app_or in Hg. destruct Hg as [Hg | [<- | []]];
            [now apply Hstr | now exists n].
      + destruct Hkeys as [[_ Hk] | [Hn Hk]]; rewrite Hk;
          [exact Hnd | now apply nodup_snoc].
      + intros name Hname. rewrite map_app in Hname.
        apply in_app_or in Hname.
        destruct Hkeys as [[Hn Hk] | [Hn Hk]]; rewrite Hk.
        * destruct Hname as [Hname | [<- | []]];
            [now apply Hall | exact Hn].
        * apply in_or_app.
          destruct Hname as [Hname | [<- | []]];
            [left; now apply Hall | right; now left].
      + intros k vs H.
        destruct (groups_append_in groups n v k vs Hstr Hnd H)
          as [[Hin Hne] | (-> & vs0 & -> & Hfrom)].
        * destruct (Hgrp k vs Hin) as (Hfull & name & -> & Hvs).
          split; [exact Hfull | ]. exists name. split; [reflexivity | ].
          rewrite filter_snoc. cbn [fst].
          destruct (String.eqb n name) eqn:E;
            [apply String.eqb_eq in E; subst; congruence | ].
          now rewrite app_nil_r.
        * split; [now destruct vs0 | ]. exists n.
          split; [reflexivity | ].
          rewrite filter_snoc. cbn [fst]. rewrite String.eqb_refl.
          rewrite map_app. cbn [map snd]. f_equal.
          destruct Hfrom as [Hin | [-> Hnew]].
          -- destruct (Hgrp (PStr n) vs0 Hin) as (_ & name & [= <-] & ->).
             reflexivity.
          -- now rewrite (Hnone Hnew). }
  destruct (Hstep samples [] []) as (_ & Hnd & Hall & Hgrp).
  { split; [intros g [] | ].
    split; [constructor | ].
    split; [intros name [] | intros k vs []]. }
  cbn [app] in *. fold step. split; [exact Hnd | split; [ | exact Hgrp]].
  intros name. split; [apply Hall | ].
  intros Hk. apply in_map_iff in Hk. destruct Hk as ([k vs] & Hk & Hin).
  cbn in Hk. subst k.
  destruct (Hgrp _ _ Hin) as (Hne & name' & [= <-] & ->).
  destruct (filter _ samples) as [|[m w] rest] eqn:Hf; [now elim Hne | ].
  assert (Hm : In (m, w) (filter (fun s => String.eqb (fst s) name) samples))
    by (rewrite Hf; now left).
  apply filter_In in Hm. destruct Hm as [Hm Heq].
  apply String.eqb_eq in Heq. cbn in Heq. subst m.
  now apply (in_map fst) in Hm.
Qed.

(** X17: grouping by a string ["group"]: every benchmark's [mean_ms] lands
    in exactly the group of its name, in the order of the benchmarks; each
    group name is a key once, and no group is empty, so the average never
    divides by zero. *)
Theorem groups_partition_benchmarks :
  forall (items : list pyval) (samples : list (string * pyval)),
    Forall2 (fun bench sample =>
               py_getitem bench "group" = inr (PStr (fst sample)) /\
               py_getitem bench "mean_ms" = inr (snd sample))
      items samples ->
    exists groups,
      for_each add_benchmark [] items = inr groups /\
      NoDup (map fst groups) /\
      (forall name,
         In name (map fst samples) <-> In (PStr name) (map fst groups)) /\
      (forall k vs,
         In (k, vs) groups ->
         vs <> [] /\
         exists name,
           k = PStr name /\
           vs = map snd
                  (filter (fun sample => String.eqb (fst sample) name)
                     samples)).
Proof.
  intros items samples Hitems. now apply groups_of_samples.
Qed.

Lemma group_lines_total (groups : list (pyval * list pyval)) :
  (forall times, times <> [] ->
     exists a lo hi sa slo shi,
       average times = inr a /\ py_min times = inr lo /\
       py_max times = inr hi /\ format_2f a = inr sa /\
       format_2f lo = inr slo /\ format_2f hi = inr shi) ->
  (forall k vs, In (k, vs) groups -> vs <> []) ->
  forall acc,
    exists lines,
      for_each (group_line repr average py_min py_max format_2f) acc groups =
        inr (acc ++ lines) /\
      List.length lines = List.length groups.
Proof.
  intros Hstats. induction groups as [|[k vs] groups IH]; intros Hfull acc.
  - exists []. now rewrite app_nil_r.
  - destruct (Hstats vs (Hfull k vs (or_introl eq_refl)))
      as (a & lo & hi & sa & slo & shi & Ha & Hlo & Hhi & Hsa & Hslo & Hshi).
    cbn [for_each]. unfold group_line at 1.
    rewrite Ha, Hlo, Hhi. cbn. rewrite Hsa, Hslo, Hshi. cbn.
    match goal with
    | |- context [for_each _ (acc ++ [?l]) groups] =>
        destruct (IH (fun k' vs' H => Hfull k' vs' (or_intror H))
                    (acc ++ [l])) as (lines & -> & Hlen);
        exists (l :: lines)
    end.
    rewrite <- app_assoc. split; [reflexivity | ]. cbn. now rewrite Hlen.
Qed.

Lemma distinct_group_count (groups : list (pyval * list pyval))
    (names : list string) :
  NoDup (map fst groups) ->
  (forall name, In name names <-> In (PStr name) (map fst groups)) ->
  (forall k, In k (map fst groups) -> exists name, k = PStr name) ->
  List.length groups = List.length (nodup string_dec names).
Proof.
  intros Hnd Hiff Hstr.
  rewrite <- (length_map fst groups), <- (length_map PStr).
  apply Permutation_length, NoDup_Permutation.
  - exact Hnd.
  - generalize (NoDup_nodup string_dec names).
    induction 1 as [|x l Hx _ IH]; cbn [map]; constructor; [ | exact IH].
    intros H. apply in_map_iff in H. destruct H as (y & [= ->] & Hy).
    now apply Hx.
  - intros k. split.
    + intros Hk. destruct (Hstr k Hk) as [name ->].
      apply in_map, nodup_In, Hiff, Hk.
    + intros Hk. apply in_map_iff in Hk. destruct Hk as (name & <- & Hn).
      apply Hiff. now apply nodup_In in Hn.
Qed.


(** *** Rows *)

Lemma flatten_samples (timestamp commit : pyval) (samples : list pyval) :
  Forall (fun sample =>
            exists name group mean_ms std_dev_ns std_dev_ms,
              py_getitem sample "name" = inr name /\
              py_getitem sample "group" = inr group /\
              py_getitem sample "mean_ms" = inr mean_ms /\
              py_getitem sample "std_dev_ns" = inr std_dev_ns /\
              div_million std_dev_ns = inr std_dev_ms) samples ->
  forall acc,
    exists rows,
      for_each (flatten_benchmark div_million timestamp commit) acc samples =
        inr (acc ++ rows) /\
      map row_benchmark rows =
        map (fun sample =>
               match py_getitem sample "name" with
               | inr name => name
               | inl _ => PNone
               end) samples /\
      Forall (fun r => row_timestamp r = timestamp /\ row_commit r = commit)
        rows.
Proof.
  induction 1 as [|sample samples Hs _ IH]; intros acc.
  - exists []. now rewrite app_nil_r.
  - destruct Hs as (name & group & mean_ms & sd & sd_ms &
                    Hn & Hg & Hm & Hsd & Hdiv).
    cbn [for_each]. unfold flatten_benchmark at 1.
    rewrite Hn, Hg, Hm, Hsd. cbn. rewrite Hdiv. cbn.
    match goal with
    | |- context [for_each _ (acc ++ [?r]) samples] =>
        destruct (IH (acc ++ [r])) as (rows & Hrows & Hnames & Hall);
        exists (r :: rows)
    end.
    rewrite Hrows, <- app_assoc. cbn [map row_benchmark].
    rewrite Hnames, Hn. repeat split. now constructor.
Qed.

(** X18: when every run is an object whose commit can be sliced and whose
    benchmarks are a list of objects carrying ["name"], ["group"],
    ["mean_ms"] and a ["std_dev_ns"] that divides, the flattening loop
    yields exactly one row per benchmark, run after run and in the order of
    each run's list. *)
Theorem one_row_per_benchmark :
  forall (data : list pyval),
    Forall (fun entry =>
              exists commit commit8 samples,
                py_get_default entry "commit" (PStr "unknown") =
                  inr commit /\
                slice8_ commit = inr commit8 /\
                py_get_default entry "benchmarks" (PList []) =
                  inr (PList samples) /\
                Forall (fun sample =>
                          exists name group mean_ms std_dev_ns std_dev_ms,
                            py_getitem sample "name" = inr name /\
                            py_getitem sample "group" = inr group /\
                            py_getitem sample "mean_ms" = inr mean_ms /\
                            py_getitem sample "std_dev_ns" =
                              inr std_dev_ns /\
                            div_million std_dev_ns = inr std_dev_ms)
                  samples) data ->
    let names_of := fun entry =>
      match py_get_default entry "benchmarks" (PList []) with
      | inr (PList samples) =>
          map (fun sample =>
                 match py_getitem sample "name" with
                 | inr name => name
                 | inl _ => PNone
                 end) samples
      | _ => []
      end in
    exists rows,
      flatten_ data = inr rows /\
      map row_benchmark rows = flat_map names_of data /\
      List.length rows = List.length (flat_map names_of data).
Proof.
  intros data Hdata names_of.
  assert (H : forall acc,
            exists rows,
              for_each (flatten_entry dict_slice_error div_million) acc data
                = inr (acc ++ rows) /\
              map row_benchmark rows = flat_map names_of data).
  { induction Hdata as [|entry data Hentry _ IH]; intros acc.
    - exists []. now rewrite app_nil_r.
    - destruct Hentry as (commit & commit8 & samples & Hc & Hs & Hb & Hok).
      cbn [for_each flat_map]. unfold flatten_entry at 1.
      unfold names_of at 1. rewrite Hb.
      destruct entry; try discriminate. cbn in Hc |- *.
      injection Hc as Hc. rewrite Hc. cbn.
      rewrite Hs. cbn.
      match goal with
      | |- context [for_each (flatten_benchmark _ ?t ?c) acc samples] =>
          destruct (flatten_samples t c samples Hok acc)
            as (rows1 & -> & Hn1 & _)
      end.
      cbn. destruct (IH (acc ++ rows1)) as (rows2 & -> & Hn2).
      exists (rows1 ++ rows2). rewrite <- app_assoc.
      split; [reflexivity | ]. now rewrite map_app, Hn1, Hn2. }
  destruct (H []) as (rows & Hrows & Hnames).
  exists rows. repeat split; [exact Hrows | exact Hnames | ].
  now rewrite <- Hnames, length_map.
Qed.

End Summary.

(** ** The further properties at the sample files *)

Local Notation "'sample_summary_'" :=
  (summary_body sample_repr TypeError sample_stat sample_stat sample_stat
     sample_format).

Lemma fresh_latest_appended_last_witness :
  load_benchmark_data sample_json_load2 (attributes bench) fs_fresh_latest =
    inr ([run_jan] ++ [run_feb]).
Proof.
  apply (fresh_latest_appended_last sample_json_load2 (attributes bench)
           fs_fresh_latest [run_jan]
           (bench // "latest" // "bench_parsed.json") [] run_feb
           (PStr "2024-02-01T00:00:00")).
  - reflexivity.
  - repeat constructor.
  - reflexivity.
  - reflexivity.
  - reflexivity.
  - reflexivity.
  - intros d a [<- | []] [= <-]. reflexivity.
Defined.

Lemma equal_timestamp_dropped_witness :
  load_benchmark_data sample_json_load2 (attributes bench) fs_untimed =
    inr [run_untimed_a].
Proof.
  apply (equal_timestamp_dropped sample_json_load2 (attributes bench)
           fs_untimed [run_untimed_a]
           (bench // "latest" // "bench_parsed.json") [] run_untimed_b
           PNone).
  - reflexivity.
  - repeat constructor.
  - reflexivity.
  - reflexivity.
  - reflexivity.
  - reflexivity.
  - exists run_untimed_a, PNone. repeat split. now left.
Defined.

Lemma latest_alone_not_inspected_witness :
  load_benchmark_data sample_json_load2 (attributes bench) fs_latest_array =
    inr [PList []].
Proof.
  apply (latest_alone_not_inspected sample_json_load2 (attributes bench)
           fs_latest_array (bench // "latest" // "bench_parsed.json") []).
  - reflexivity.
  - reflexivity.
  - reflexivity.
  - reflexivity.
Defined.

Lemma non_object_run_raises_witness :
  load_benchmark_data sample_json_load2 (attributes bench)
    fs_archived_array = inl AttributeError.
Proof.
  apply (non_object_run_raises sample_json_load2 (attributes bench)
           fs_archived_array (PList []) []
           (bench // "latest" // "bench_parsed.json") [] run_jan).
  - reflexivity.
  - reflexivity.
  - reflexivity.
  - reflexivity.
  - reflexivity.
Defined.

Lemma other_error_aborts_load_witness :
  exists e',
    load_benchmark_data sample_json_load2 (attributes bench) fs_not_utf8 =
      inl e' /\
    handled e' = false.
Proof.
  apply (other_error_aborts_load sample_json_load2 (attributes bench)
           fs_not_utf8
           [("2024-01", Dir [("bench_parsed.json", File "jan")]);
            ("2024-02", Dir [("bench_parsed.json", File "not-utf8")]);
            ("2024-03", Dir [("bench_parsed.json", File "feb")])]
           "2024-02"
           (bench // "archive" // "2024-02" // "bench_parsed.json") []
           UnicodeDecodeError).
  - reflexivity.
  - simpl. tauto.
  - reflexivity.
  - reflexivity.
  - reflexivity.
  - reflexivity.
Defined.

Lemma archive_regular_file_raises_witness :
  load_benchmark_data sample_json_load2 (attributes bench)
    fs_archive_is_file = inl NotADirectoryError.
Proof.
  apply (archive_regular_file_raises sample_json_load2 (attributes bench)
           fs_archive_is_file "not a directory").
  reflexivity.
Defined.

Lemma load_returns_objects_witness :
  exists data,
    load_benchmark_data sample_json_load (attributes bench)
      fs_duplicate_latest = inr data /\
    Forall (fun d => is_dict d = true) data.
Proof.
  apply (load_returns_objects sample_json_load (attributes bench)
           fs_duplicate_latest).
  - cbn. intros name first rest [<- | [<- | [<- | []]]] Hglob;
      vm_compute in Hglob; try discriminate;
      injection Hglob as <- <-; reflexivity.
  - intros first rest Hglob. vm_compute in Hglob.
    injection Hglob as <- <-. reflexivity.
Defined.

Lemma run_changes_only_reports_witness :
  lookup
    (snd (sample_run (attributes bench) new_year one_second_later
            fs_archive_only))
    (bench // "archive") =
  lookup fs_archive_only (bench // "archive").
Proof.
  apply (run_changes_only_reports sample_json_load false sample_summary
           unit unit sample_flatten sample_to_frame sample_plot
           (attributes bench) new_year one_second_later fs_archive_only
           (bench // "archive")).
  - apply sibling_not_prefix. discriminate.
  - apply sibling_not_prefix. discriminate.
Defined.

Lemma main_changes_only_benchmark_dir_witness :
  lookup (snd (sample_main None new_year one_second_later fs_no_bench))
    ["src"]%string =
  lookup fs_no_bench ["src"]%string.
Proof.
  apply (main_changes_only_benchmark_dir sample_json_load false (inr tt)
           sample_summary unit unit sample_flatten sample_to_frame
           sample_plot None new_year one_second_later fs_no_bench
           ["src"]%string).
  - intros [r Hr]. cbn in Hr. discriminate.
  - intros [r Hr]. cbn in Hr. discriminate.
Defined.

Lemma charts_written_and_referenced_witness :
  exists fs',
    generate_performance_trends true sample_summary unit unit
      sample_flatten sample_to_frame sample_plot (attributes bench)
      [run_jan] fs_empty_reports =
      (inr ("![Performance Trends](./performance_trends.png)" ++ nl ++ nl ++
            "![Group Performance](./group_performance.png)" ++ nl ++ nl ++
            "![Recent Changes](./recent_changes.png)" ++ nl ++ nl ++
            "![Performance Distribution](./performance_distribution.png)"
            ++ nl)%string,
       fs') /\
    (forall c,
       lookup fs' (bench // "reports" // chart_file c) =
         Some (File "PNG")).
Proof.
  apply (charts_written_and_referenced true sample_summary unit unit
           sample_flatten sample_to_frame sample_plot (attributes bench)
           [run_jan] fs_empty_reports tt [] tt (fun _ => "PNG"%string)).
  - reflexivity.
  - discriminate.
  - reflexivity.
  - reflexivity.
  - reflexivity.
  - reflexivity.
  - intros []; reflexivity.
Defined.

Lemma summary_without_benchmarks_witness :
  _generate_text_summary sample_summary_ ([run_feb] ++ [run_jan]) =
    inr ("## üìä Performance Summary (Text)" ++ nl ++ nl ++
         "**Last Updated**: " ++ "2024-01-01T00:00:00" ++ nl ++
         "**Commit**: " ++ str_slice_to 8 "0123456789abcdef" ++ nl ++
         "**Total Benchmarks**: 0" ++ nl)%string.
Proof.
  apply (summary_without_benchmarks sample_repr TypeError sample_stat
           sample_stat sample_stat sample_format [run_feb] run_jan).
  - reflexivity.
  - reflexivity.
  - reflexivity.
Defined.

Lemma summary_missing_group_raises_witness :
  _generate_text_summary sample_summary_ ([run_jan] ++ [run_missing_group]) =
    inl KeyError.
Proof.
  apply (summary_missing_group_raises sample_repr TypeError sample_stat
           sample_stat sample_stat sample_format [run_jan]
           run_missing_group (PStr "unknown") (PStr "unknown")
           [("name", PStr "parse"); ("mean_ms", PInt 3)] []).
  - reflexivity.
  - reflexivity.
  - reflexivity.
  - reflexivity.
Defined.

Lemma commit_slice_is_prefix_witness :
  str_slice_to 8 "abc1234" = "abc1234"%string.
Proof.
  apply (proj2 (proj2 (commit_slice_is_prefix TypeError "abc1234"))).
  apply Nat.leb_le. reflexivity.
Defined.

Lemma no_samples_no_charts_witness :
  generate_performance_trends true sample_summary FlattenedRecord unit
    (flatten_runs TypeError sample_div) (fun _ => inr tt) sample_plot
    (attributes bench) [run_jan; run_feb] fs_empty_reports =
    (_generate_text_summary sample_summary [run_jan; run_feb],
     fs_empty_reports).
Proof.
  apply (no_samples_no_charts TypeError sample_div true sample_summary unit
           (fun _ => inr tt) sample_plot (attributes bench)
           [run_jan; run_feb] fs_empty_reports).
  constructor.
  { exists (PStr "0123456789abcdef"), (PStr "01234567"), (PList []).
    repeat split. }
  constructor.
  { exists (PStr "89abcdef01234567"), (PStr "89abcdef"), (PList []).
    repeat split. }
  constructor.
Defined.

Lemma groups_partition_benchmarks_witness :
  exists groups,
    for_each add_benchmark []
      [bench_sample "parse" "context" 3; bench_sample "rank" "ranking" 5;
       bench_sample "extract" "context" 4] = inr groups /\
    NoDup (map fst groups) /\
    (forall name,
       In name ["context"; "ranking"; "context"]%string <->
       In (PStr name) (map fst groups)) /\
    (forall k vs,
       In (k, vs) groups ->
       vs <> [] /\
       exists name,
         k = PStr name /\
         vs = map snd
                (filter (fun sample => String.eqb (fst sample) name)
                   [("context", PInt 3); ("ranking", PInt 5);
                    ("context", PInt 4)]%string)).
Proof.
  apply (groups_partition_benchmarks
           [bench_sample "parse" "context" 3; bench_sample "rank" "ranking" 5;
            bench_sample "extract" "context" 4]
           [("context", PInt 3); ("ranking", PInt 5);
            ("context", PInt 4)]%string).
  repeat constructor.
Defined.

Lemma one_row_per_benchmark_witness :
  exists rows,
    flatten_runs TypeError sample_div [run_with_samples; run_jan] =
      inr rows /\
    map row_benchmark rows = [PStr "parse"; PStr "rank"; PStr "extract"] /\
    List.length rows = 3.
Proof.
  apply (one_row_per_benchmark TypeError sample_div
           [run_with_samples; run_jan]).
  constructor.
  { exists (PStr "0123456789abcdef"), (PStr "01234567"),
      [bench_sample "parse" "context" 3; bench_sample "rank" "ranking" 5;
       bench_sample "extract" "context" 4].
    repeat split.
    repeat (constructor;
            [do 5 eexists; repeat split; reflexivity | ]).
    constructor. }
  constructor.
  { exists (PStr "0123456789abcdef"), (PStr "01234567"), [].
    repeat split. constructor. }
  constructor.
Defined.

Lemma main_twice_writes_dashboard_witness :
  exists fs1 fs2,
    sample_main (Some ["out"; "bench"]%string) new_year new_year
      fs_no_bench = (inr tt, fs1) /\
    exists_ fs1 (["out"; "bench"]%string // "reports") = false /\
    sample_main (Some ["out"; "bench"]%string) new_year one_second_later
      fs1 = (inr tt, fs2) /\
    lookup fs2 (["out"; "bench"]%string // "reports" // "index.html") =
      Some (File (generate_index_html new_year no_data_message)) /\
    lookup fs2 (["out"; "bench"]%string // "reports" // "README.md") =
      Some (File (readme_text no_data_message one_second_later)).
Proof.
  apply (main_twice_writes_dashboard sample_json_load false (inr tt)
           sample_summary unit unit sample_flatten sample_to_frame
           sample_plot (Some ["out"; "bench"]%string) new_year new_year
           new_year one_second_later fs_no_bench).
  - reflexivity.
  - reflexivity.
  - discriminate.
Defined.

Lemma rerun_succeeds_witness :
  exists fs2 content,
    sample_run (attributes bench) one_second_later one_second_later
      (snd (sample_run (attributes bench) new_year new_year
              fs_archive_only)) = (inr tt, fs2) /\
    lookup
      (snd (sample_run (attributes bench) new_year new_year
              fs_archive_only))
      (bench // "reports" // "index.html") =
      Some (File (generate_index_html new_year content)) /\
    lookup fs2 (bench // "reports" // "index.html") =
      Some (File (generate_index_html one_second_later content)) /\
    lookup fs2 (bench // "reports" // "README.md") =
      Some (File (readme_text content one_second_later)).
Proof.
  apply (rerun_succeeds sample_json_load false sample_summary unit unit
           sample_flatten sample_to_frame sample_plot bench new_year
           new_year one_second_later one_second_later fs_archive_only).
  reflexivity.
Defined.


Lemma style_failure_escapes_main_witness :
  main sample_json_load true failing_style sample_summary unit unit
    sample_flatten sample_to_frame sample_plot None new_year
    one_second_later fs_empty_bench =
    (inl (LibraryError "OSError"), fs_empty_bench) /\
  exit_status
    (fst (main sample_json_load true failing_style sample_summary unit unit
            sample_flatten sample_to_frame sample_plot None new_year
            one_second_later fs_empty_bench)) = 1%Z.
Proof.
  apply (style_failure_escapes_main sample_json_load true failing_style
           sample_summary unit unit sample_flatten sample_to_frame
           sample_plot None new_year one_second_later fs_empty_bench
           (LibraryError "OSError")).
  - reflexivity.
  - reflexivity.
  - reflexivity.
Defined.
